(** * xrandream: virtual sub-displays carved out of a physical monitor

    A shallow embedding of [xrandream.py]: the [Xrandr] command gateway,
    the [VirtualDisplayManager] (toggle store, screen partitioner, outline
    bookkeeping), the [SnippingWidget] drag selector, the [OutlineWidget]
    overlay and the main window with its event loop, followed by the
    properties of the specification that concern them. *)

From Stdlib Require Import ZArith QArith Qround Lia Ascii String.
From stdpp Require Import base strings gmap list pretty.

Local Open Scope Z_scope.

(** ** Python values, exceptions and results *)

(** The exceptions the modelled code can raise. *)
Inductive exn : Type :=
  | KeyError            (* [d[k]] on a missing key *)
  | IndexError          (* [l[i]] out of range *)
  | ZeroDivisionError   (* [a / 0] *)
  | AttributeError      (* a method call on [None] *)
  | ValueError          (* [int(s)] on a non-numeral *)
  | CalledProcessError. (* [check_call] saw a nonzero exit status *)

Inductive res (A : Type) : Type :=
  | Ok (a : A)
  | Raise (e : exn).
Arguments Ok {A} a.
Arguments Raise {A} e.

Definition res_bind {A B} (m : res A) (k : A -> res B) : res B :=
  match m with
  | Ok a => k a
  | Raise e => Raise e
  end.

Declare Scope res_scope.
Delimit Scope res_scope with res.
Notation "'let?' x ':=' m 'in' k" :=
  (res_bind m (fun x => k))
  (at level 10, x name, m at level 100, k at level 200) : res_scope.
Notation "'let?' ' x ':=' m 'in' k" :=
  (res_bind m (fun x => k))
  (at level 10, x strict pattern, m at level 100, k at level 200) : res_scope.
Local Open Scope res_scope.

(** [for x in l: acc = f(acc, x)], stopping at the first exception. *)
Fixpoint for_each {A B} (f : B -> A -> res B) (l : list A) (acc : B) : res B :=
  match l with
  | [] => Ok acc
  | x :: l' => let? acc' := f acc x in for_each f l' acc'
  end.

(** ** The event queue *)

(** An event the application's event loop dispatches, together with the
    events that wait in the queue when the handler of the event calls
    [QApplication.processEvents()]: that call dispatches them, in order
    and each with the events waiting in its own turn, before the handler
    goes on.  Which events have arrived by then is up to the user and
    the window system; a list of such trees fixes one course of
    events. *)
#[warnings="-register-all"]
Inductive queued (E : Type) : Type :=
  | Queued (ev : E) (pending : list (queued E)).
Arguments Queued {E} ev pending.

Section EventLoop.
Context {E S : Type}.

(** [handle ev queue s] runs the handler of [ev] in state [s]; [queue]
    dispatches the events that wait in the queue. *)
Variable handle : E -> (S -> res S) -> S -> res S.

Fixpoint dispatch (q : queued E) (s : S) {struct q} : res S :=
  match q with
  | Queued ev pending =>
      handle ev (fun s' => for_each (fun s'' q' => dispatch q' s'') pending s') s
  end.

(** [app.exec_()], for the events that arrive. *)
Definition event_loop (queue : list (queued E)) (s : S) : res S :=
  for_each (fun s q => dispatch q s) queue s.

End EventLoop.

(** [range(n)] for a Python [int] [n]: empty when [n <= 0]. *)
Definition py_range (n : Z) : list Z := Z.of_nat <$> seq 0 (Z.to_nat n).

(** [a / b] on Python ints is true division.  It is modelled over the exact
    rationals; the IEEE double the interpreter computes has the same ceiling
    for every screen size a [QSize] (a C [int]) can hold and the divisors
    2, 3, 4 and 6 used by the callers. *)
Definition py_truediv (a b : Z) : res Q :=
  if decide (b = 0) then Raise ZeroDivisionError
  else Ok (inject_Z a / inject_Z b)%Q.

Definition math_ceil (q : Q) : Z := Qceiling q.

(** ** Strings *)

Definition is_digit (c : ascii) : bool :=
  let n := nat_of_ascii c in (48 <=? n)%nat && (n <=? 57)%nat.

Definition digit_value (c : ascii) : Z := Z.of_nat (nat_of_ascii c) - 48.

(** [int(s)] on a non-empty run of decimal digits. *)
Fixpoint int_of_digits (acc : Z) (s : string) : res Z :=
  match s with
  | EmptyString => Ok acc
  | String c s' =>
      if is_digit c then int_of_digits (10 * acc + digit_value c) s'
      else Raise ValueError
  end.

Definition py_int (s : string) : res Z :=
  match s with
  | EmptyString => Raise ValueError
  | _ => int_of_digits 0 s
  end.

(** [s.startswith(p)]. *)
Fixpoint startswith (p s : string) : bool :=
  match p, s with
  | EmptyString, _ => true
  | String a p', String b s' => bool_decide (a = b) && startswith p' s'
  | String _ _, EmptyString => false
  end.

(** [s[n:]]: a slice never raises, it is empty past the end. *)
Fixpoint slice_from (n : nat) (s : string) : string :=
  match n, s with
  | O, _ => s
  | S n', String _ s' => slice_from n' s'
  | S _, EmptyString => EmptyString
  end.

(** [s.replace(old, new)] for a non-empty [old]: every occurrence, left to
    right, without overlap.  [skip] counts the characters of an occurrence
    just replaced that are still to be dropped. *)
Fixpoint replace_from (old new : string) (skip : nat) (s : string) : string :=
  match s with
  | EmptyString => EmptyString
  | String c s' =>
      match skip with
      | S k => replace_from old new k s'
      | O =>
          if startswith old s
          then new +:+ replace_from old new (String.length old - 1) s'
          else String c (replace_from old new 0 s')
      end
  end.

Definition py_replace (old new s : string) : string := replace_from old new 0 s.

(** The pattern [(\d+)/\d+x(\d+)/\d+\+(\d+)\+(\d+)] of
    [init_active_monitors].  Every [\d+] but the last is followed by a
    literal that is not a digit, so the only way the greedy [\d+] can match
    is on a maximal run of digits; [digits] splits that run off. *)
Fixpoint digits (s : string) : string * string :=
  match s with
  | String c s' =>
      if is_digit c then let '(d, rest) := digits s' in (String c d, rest)
      else (EmptyString, s)
  | EmptyString => (EmptyString, EmptyString)
  end.

(** [\d+]: a non-empty maximal run of digits. *)
Definition digits1 (s : string) : option (string * string) :=
  match digits s with
  | (EmptyString, _) => None
  | (d, rest) => Some (d, rest)
  end.

(** A literal character of the pattern. *)
Definition lit (c : ascii) (s : string) : option string :=
  match s with
  | String c' s' => if decide (c = c') then Some s' else None
  | EmptyString => None
  end.

(** The pattern matched at the head of [s]: the four groups. *)
Definition geometry_match_here (s : string)
  : option (string * string * string * string) :=
  '(w, s) ← digits1 s; s ← lit "/" s; '(_, s) ← digits1 s; s ← lit "x" s;
  '(h, s) ← digits1 s; s ← lit "/" s; '(_, s) ← digits1 s; s ← lit "+" s;
  '(x, s) ← digits1 s; s ← lit "+" s; '(y, _) ← digits1 s;
  Some (w, h, x, y).

(** [re.findall(pattern, s)[0]]: the groups of the leftmost match;
    [IndexError] when there is none. *)
Fixpoint geometry_findall_0 (s : string)
  : res (string * string * string * string) :=
  match geometry_match_here s with
  | Some g => Ok g
  | None =>
      match s with
      | String _ s' => geometry_findall_0 s'
      | EmptyString => Raise IndexError
      end
  end.

(** ** Geometry *)

Record QPoint : Type := mkQPoint { px : Z; py : Z }.

(** [QPoint()] is the origin. *)
Definition QPoint_null : QPoint := mkQPoint 0 0.

Record QSize : Type := mkQSize { size_width : Z; size_height : Z }.

(** A grid cell as [divide_screen] builds it: the tuple
    [(width, height, offset_x, offset_y)]. *)
Abbreviation cell := (Z * Z * Z * Z)%type.

(** ** The external display tool *)

(** What a Python function hands back where the source returns [True],
    [False] or falls off its end. *)
Inductive pyval : Type :=
  | PyNone
  | PyBool (b : bool).

Definition truthy (v : pyval) : bool :=
  match v with
  | PyNone => false
  | PyBool b => b
  end.

Module Xrandr.

(** The tool as the program sees it: the command lines run so far, the
    exit status it answers to a command line after a given history, and
    the tuples [list_monitors] extracts from its [--listmonitors]
    output. *)
Record tool : Type := mkTool {
  calls : list (list string);
  exit_status : list (list string) -> list string -> Z;
  monitors : list (string * string * string * string)
}.

(** [subprocess.check_call(argv)]: runs the tool once and raises
    [CalledProcessError] on a nonzero exit status. *)
Definition check_call (argv : list string) (x : tool) : res unit * tool :=
  let status := exit_status x (calls x) argv in
  let x' := mkTool (calls x ++ [argv]) (exit_status x) (monitors x) in
  (if decide (status = 0) then Ok tt else Raise CalledProcessError, x').

Definition list_monitors (x : tool)
  : list (string * string * string * string) := monitors x.

Definition del_monitor (name : string) (x : tool) : res pyval * tool :=
  match check_call ["xrandr"; "--delmonitor"; "PYR-" +:+ name] x with
  | (Ok _, x') => (Ok (PyBool true), x')
  | (Raise CalledProcessError, x') => (Ok (PyBool false), x')
  | (Raise e, x') => (Raise e, x')
  end.

(** The [try] block has no [return]: on success the function falls off
    its end and the caller receives [None]. *)
Definition set_monitor (name : string) (width height offset_x offset_y : Z)
    (device : string) (x : tool) : res pyval * tool :=
  match check_call
          ["xrandr"; "--setmonitor"; "PYR-" +:+ name;
           pretty width +:+ "/1x" +:+ pretty height +:+ "/1+" +:+
             pretty offset_x +:+ "+" +:+ pretty offset_y;
           device] x with
  | (Ok _, x') => (Ok PyNone, x')
  | (Raise CalledProcessError, x') => (Ok (PyBool false), x')
  | (Raise e, x') => (Raise e, x')
  end.

(** The default of [set_monitor]'s [device] parameter. *)
Definition default_device : string := "none".

End Xrandr.

(** ** The outline overlay *)

Module OutlineWidget.

(** An overlay window: the two corners it was built from, the geometry
    given to [setGeometry] as [(x, y, w, h)], and whether its window
    still exists ([show()] in the constructor, [destroy()] later). *)
Record t : Type := mk {
  start : QPoint;
  end_ : QPoint;
  geometry : Z * Z * Z * Z;
  alive : bool
}.

Definition __init__ (start end_ : QPoint) : t :=
  mk start end_
     (px start, py start, px end_ - px start, py end_ - py start)
     true.

Definition coordinates (self : t) : Z * Z := (px (start self), py (start self)).

Definition size (self : t) : Z * Z :=
  (px (end_ self) - px (start self), py (end_ self) - py (start self)).

Definition destroy (self : t) : t :=
  mk (start self) (end_ self) (geometry self) false.

(** The end of the object.  An outline widget has no parent and belongs
    to the interpreter: when the last reference to it goes, the object
    is deallocated and the binding deletes the window with it. *)
Definition dealloc (self : t) : t :=
  mk (start self) (end_ self) (geometry self) false.

End OutlineWidget.

(** ** The region selector *)

Inductive WindowState : Type :=
  | WindowNoState
  | WindowMinimized
  | WindowFullScreen
  | WindowActive.

Inductive CursorShape : Type :=
  | CrossCursor.

Inductive Key : Type :=
  | Key_Escape
  | Key_other (code : Z).

Module SnippingWidget.

Section Widget.
(** The state the two callbacks act on. *)
Context {W : Type}.

(** The widget's attributes, with the parts of the toolkit its methods
    touch: whether the capture surface is shown, its opacity and
    window state, the window state of [self.parent], and
    [QApplication]'s stack of override cursors. *)
Record t : Type := mk {
  is_snipping : bool;
  begin : QPoint;
  end_ : QPoint;
  onSnippingCompleted : option (QPoint -> QPoint -> W -> res W);
  onSnippingCancelled : option (W -> res W);
  visible : bool;
  opacity : Q;
  window_state : WindowState;
  parent_window_state : WindowState;
  override_cursors : list CursorShape
}.

(** Attribute assignments and toolkit calls, one field each. *)
Definition set_is_snipping (b : bool) (self : t) : t :=
  mk b (begin self) (end_ self) (onSnippingCompleted self)
     (onSnippingCancelled self) (visible self) (opacity self)
     (window_state self) (parent_window_state self) (override_cursors self).

Definition set_begin (p : QPoint) (self : t) : t :=
  mk (is_snipping self) p (end_ self) (onSnippingCompleted self)
     (onSnippingCancelled self) (visible self) (opacity self)
     (window_state self) (parent_window_state self) (override_cursors self).

Definition set_end (p : QPoint) (self : t) : t :=
  mk (is_snipping self) (begin self) p (onSnippingCompleted self)
     (onSnippingCancelled self) (visible self) (opacity self)
     (window_state self) (parent_window_state self) (override_cursors self).

Definition set_onSnippingCompleted
    (c : option (QPoint -> QPoint -> W -> res W)) (self : t) : t :=
  mk (is_snipping self) (begin self) (end_ self) c
     (onSnippingCancelled self) (visible self) (opacity self)
     (window_state self) (parent_window_state self) (override_cursors self).

Definition set_onSnippingCancelled (c : option (W -> res W)) (self : t) : t :=
  mk (is_snipping self) (begin self) (end_ self) (onSnippingCompleted self)
     c (visible self) (opacity self)
     (window_state self) (parent_window_state self) (override_cursors self).

Definition set_visible (b : bool) (self : t) : t :=
  mk (is_snipping self) (begin self) (end_ self) (onSnippingCompleted self)
     (onSnippingCancelled self) b (opacity self)
     (window_state self) (parent_window_state self) (override_cursors self).

Definition setWindowOpacity (o : Q) (self : t) : t :=
  mk (is_snipping self) (begin self) (end_ self) (onSnippingCompleted self)
     (onSnippingCancelled self) (visible self) o
     (window_state self) (parent_window_state self) (override_cursors self).

Definition setWindowState (s : WindowState) (self : t) : t :=
  mk (is_snipping self) (begin self) (end_ self) (onSnippingCompleted self)
     (onSnippingCancelled self) (visible self) (opacity self)
     s (parent_window_state self) (override_cursors self).

Definition parent_setWindowState (s : WindowState) (self : t) : t :=
  mk (is_snipping self) (begin self) (end_ self) (onSnippingCompleted self)
     (onSnippingCancelled self) (visible self) (opacity self)
     (window_state self) s (override_cursors self).

Definition setOverrideCursor (c : CursorShape) (self : t) : t :=
  mk (is_snipping self) (begin self) (end_ self) (onSnippingCompleted self)
     (onSnippingCancelled self) (visible self) (opacity self)
     (window_state self) (parent_window_state self)
     (c :: override_cursors self).

Definition restoreOverrideCursor (self : t) : t :=
  mk (is_snipping self) (begin self) (end_ self) (onSnippingCompleted self)
     (onSnippingCancelled self) (visible self) (opacity self)
     (window_state self) (parent_window_state self)
     (tail (override_cursors self)).

Definition show (self : t) : t := set_visible true self.
Definition close (self : t) : t := set_visible false self.

Definition __init__ : t :=
  mk false QPoint_null QPoint_null None None false 1 WindowNoState
     WindowNoState [].

Definition start (region_selected_callback :
                    option (QPoint -> QPoint -> W -> res W))
    (selection_cancelled_callback : option (W -> res W)) (self : t) : t :=
  let self := set_is_snipping true self in
  let self := set_onSnippingCompleted region_selected_callback self in
  let self := set_onSnippingCancelled selection_cancelled_callback self in
  let self := parent_setWindowState WindowMinimized self in
  let self := setWindowOpacity (3 # 10) self in
  let self := setOverrideCursor CrossCursor self in
  let self := setWindowState WindowFullScreen self in
  show self.

(** Only the attributes [paintEvent] assigns are modelled, not the
    rectangle it paints. *)
Definition paintEvent (self : t) : t :=
  if is_snipping self then setWindowOpacity (3 # 10) self
  else
    let self := set_begin QPoint_null self in
    let self := set_end QPoint_null self in
    setWindowOpacity 0 self.

(** [self.repaint()] runs [paintEvent] at once when the widget is
    shown; [self.update()] only schedules a later paint event. *)
Definition repaint (self : t) : t :=
  if visible self then paintEvent self else self.

Definition update (self : t) : t := self.

Definition mousePressEvent (pos : QPoint) (self : t) : t :=
  let self := set_begin pos self in
  let self := set_end (begin self) self in
  update self.

Definition mouseMoveEvent (pos : QPoint) (self : t) : t :=
  let self := set_end pos self in
  update self.

(** [processEvents] stands for [QApplication.processEvents()]: it
    dispatches the events waiting in the queue, whose handlers act on
    this widget and on the state of the callbacks, and returns both as
    they are afterwards.  The corners [x1], ..., [y2] are locals of the
    handler, computed before. *)
Definition mouseReleaseEvent (processEvents : t -> W -> res (t * W))
    (self : t) (world : W) : res (t * W) :=
  let self := set_is_snipping false self in
  let self := restoreOverrideCursor self in
  let x1 := Z.min (px (begin self)) (px (end_ self)) in
  let y1 := Z.min (py (begin self)) (py (end_ self)) in
  let x2 := Z.max (px (begin self)) (px (end_ self)) in
  let y2 := Z.max (py (begin self)) (py (end_ self)) in
  let self := repaint self in
  let self := parent_setWindowState WindowActive self in
  let? '(self, world) := processEvents self world in
  let? world :=
    match onSnippingCompleted self with
    | Some callback => callback (mkQPoint x1 y1) (mkQPoint x2 y2) world
    | None => Ok world
    end in
  let self := set_onSnippingCompleted None self in
  Ok (close self, world).

Definition keyPressEvent (processEvents : t -> W -> res (t * W))
    (key : Key) (self : t) (world : W) : res (t * W) :=
  match key with
  | Key_Escape =>
      let self := restoreOverrideCursor self in
      let self := repaint self in
      let self := parent_setWindowState WindowActive self in
      let? '(self, world) := processEvents self world in
      let self := set_onSnippingCompleted None self in
      let? world :=
        match onSnippingCancelled self with
        | Some callback => callback world
        | None => Ok world
        end in
      let self := set_onSnippingCancelled None self in
      Ok (close self, world)
  | Key_other _ => Ok (self, world)
  end.

(** The events the toolkit sends to the capture surface. *)
Inductive event : Type :=
  | MousePress (pos : QPoint)
  | MouseMove (pos : QPoint)
  | MouseRelease (pos : QPoint)
  | KeyPress (key : Key)
  | Paint.

(** The handler of [ev], and the events waiting in the queue, which
    [queue] dispatches: from inside [processEvents()] in the handlers of
    a release and of Escape; the other handlers return without looking
    at the queue, and the event loop goes on with what waits there. *)
Definition handle (ev : event) (queue : t -> W -> res (t * W))
    (self : t) (world : W) : res (t * W) :=
  match ev with
  | MousePress pos => queue (mousePressEvent pos self) world
  | MouseMove pos => queue (mouseMoveEvent pos self) world
  | MouseRelease _ => mouseReleaseEvent queue self world
  | KeyPress Key_Escape => keyPressEvent queue Key_Escape self world
  | KeyPress key =>
      let? '(self, world) := keyPressEvent queue key self world in
      queue self world
  | Paint => queue (paintEvent self) world
  end.

(** The toolkit sends input and paint events to a shown widget only:
    once [close()] has run, an event for the capture surface reaches no
    handler, and the event loop goes on with the queue. *)
Definition deliver (ev : event) (queue : t -> W -> res (t * W))
    (self : t) (world : W) : res (t * W) :=
  if visible self then handle ev queue self world else queue self world.

(** The event loop of an application made of the capture surface and
    the state of its callbacks. *)
Definition notify (ev : event) (queue : t * W -> res (t * W)) (s : t * W)
  : res (t * W) :=
  deliver ev (fun self world => queue (self, world)) (fst s) (snd s).

Definition run (queue : list (queued event)) (self : t) (world : W)
  : res (t * W) :=
  event_loop notify queue (self, world).

End Widget.
Arguments t W : clear implicits.

End SnippingWidget.

(** ** The display manager *)

Module VirtualDisplayManager.

(** The keys of [enabled_displays], in the order of the source. *)
Definition regions : list string :=
  ["select_region"; "full_screen"; "right_half"; "left_half";
   "left_third"; "center_third"; "right_third";
   "top_left_quarter"; "top_right_quarter";
   "bottom_left_quarter"; "bottom_right_quarter";
   "top_left_sixth"; "top_center_sixth"; "top_right_sixth";
   "bottom_left_sixth"; "bottom_center_sixth"; "bottom_right_sixth"].

(** The manager's attributes and the objects its methods reach:
    - [screen]: the size of [app.primaryScreen()];
    - [enabled_displays], [rectangles]: the two dicts; a value of
      [rectangles] is a reference into [outlines];
    - [push_buttons]: the checked state of the main window's push
      buttons, by object name;
    - [outlines]: every [OutlineWidget] built so far, in order of
      construction; an object that was destroyed or deallocated stays
      in the list, marked as such;
    - [xrandr]: the external tool. *)
Record t : Type := mk {
  screen : QSize;
  enabled_displays : gmap string bool;
  rectangles : gmap string nat;
  push_buttons : gmap string bool;
  outlines : list OutlineWidget.t;
  xrandr : Xrandr.tool
}.

Definition set_enabled_displays (d : gmap string bool) (self : t) : t :=
  mk (screen self) d (rectangles self) (push_buttons self) (outlines self)
     (xrandr self).

Definition set_rectangles (r : gmap string nat) (self : t) : t :=
  mk (screen self) (enabled_displays self) r (push_buttons self)
     (outlines self) (xrandr self).

Definition set_push_buttons (b : gmap string bool) (self : t) : t :=
  mk (screen self) (enabled_displays self) (rectangles self) b
     (outlines self) (xrandr self).

Definition set_outlines (o : list OutlineWidget.t) (self : t) : t :=
  mk (screen self) (enabled_displays self) (rectangles self)
     (push_buttons self) o (xrandr self).

Definition set_xrandr (x : Xrandr.tool) (self : t) : t :=
  mk (screen self) (enabled_displays self) (rectangles self)
     (push_buttons self) (outlines self) x.

(** [OutlineWidget(start, end)]: a new object; its reference is returned. *)
Definition new_OutlineWidget (start end_ : QPoint) (self : t) : nat * t :=
  (length (outlines self),
   set_outlines (outlines self ++ [OutlineWidget.__init__ start end_]) self).

(** [self.rectangles[area] = widget], for the widget at [ref].  The
    entry is rebound, and the widget it was bound to loses this
    reference.  The entries of [rectangles] are the only references to
    the outline widgets, so when no entry refers to that widget any more
    it is deallocated. *)
Definition setitem_rectangles (area : string) (ref : nat) (self : t) : t :=
  let old := rectangles self !! area in
  let self := set_rectangles (<[area := ref]> (rectangles self)) self in
  match old with
  | Some old =>
      if bool_decide (map_Forall (fun _ r => r <> old) (rectangles self))
      then set_outlines (alter OutlineWidget.dealloc old (outlines self)) self
      else self
  | None => self
  end.

(** [self.rectangles[area].destroy()]. *)
Definition destroy_rectangle (area : string) (self : t) : res t :=
  match rectangles self !! area with
  | Some ref => Ok (set_outlines (alter OutlineWidget.destroy ref (outlines self)) self)
  | None => Raise KeyError
  end.

(** [self.main_window.findChild(QPushButton, name).setChecked(checked)]:
    [findChild] answers [None] when the form has no such button.  A
    change of the checked state makes the button emit [toggled], which
    re-enters the handler connected to it; that call finds the flag
    already stored by [set_state] and returns at its first test, so it
    is not threaded through the model. *)
Definition setChecked (object_name : string) (checked : bool) (self : t)
  : res t :=
  match push_buttons self !! object_name with
  | Some _ => Ok (set_push_buttons (<[object_name := checked]> (push_buttons self)) self)
  | None => Raise AttributeError
  end.

Definition check_invalid_state (area : string) (enabled : bool) (self : t)
  : res bool :=
  match enabled_displays self !! area with
  | Some stored => Ok (bool_decide (enabled = stored))
  | None => Raise KeyError
  end.

Definition set_state (area : string) (enabled : bool) (self : t)
  : res (bool * t) :=
  let? invalid := check_invalid_state area enabled self in
  if invalid : bool then Ok (false, self) else
  let self := set_enabled_displays (<[area := enabled]> (enabled_displays self)) self in
  let? self := setChecked ("push_button_" +:+ area) enabled self in
  let? self :=
    if negb enabled && bool_decide (is_Some (rectangles self !! area)) then
      let? self := destroy_rectangle area self in
      Ok (set_rectangles (delete area (rectangles self)) self)
    else Ok self in
  Ok (true, self).

Definition screen_dimensions (self : t) : Z * Z :=
  (size_width (screen self), size_height (screen self)).

(** [result[r].append(c)]: Python raises [IndexError] when row [r] does
    not exist. *)
Definition append_at (r : Z) (c : cell) (result : list (list cell))
  : res (list (list cell)) :=
  if decide (r < 0) then Raise IndexError else
  match result !! Z.to_nat r with
  | Some row => Ok (<[Z.to_nat r := row ++ [c]]> result)
  | None => Raise IndexError
  end.

Definition divide_screen (self : t) (parts : Z) : res (list (list cell)) :=
  let rows := if decide (parts > 3) then 2 else 1 in
  let result := [] in
  let '(w, h) := screen_dimensions self in
  let? q := py_truediv w parts in
  let pw := math_ceil (q * inject_Z rows)%Q in
  let? q' := py_truediv h rows in
  let ph := math_ceil q' in
  for_each (fun result r =>
      let result := result ++ [[]] in
      for_each (fun result c => append_at r (pw, ph, pw * c, ph * r) result)
               (py_range (parts `div` rows)) result)
    (py_range rows) result.

Definition draw_outline (area : string) (w h x y : Z) (self : t) : res t :=
  let? self :=
    if bool_decide (is_Some (rectangles self !! area))
    then destroy_rectangle area self else Ok self in
  let '(ref, self) :=
    new_OutlineWidget (mkQPoint x y) (mkQPoint (x + w) (y + h)) self in
  Ok (setitem_rectangles area ref self).

(** [Xrandr.set_monitor(...)] and [Xrandr.del_monitor(...)] as the
    manager calls them: the value returned is dropped. *)
Definition call_set_monitor (name : string) (w h x y : Z) (self : t) : res t :=
  let '(r, tool) :=
    Xrandr.set_monitor name w h x y Xrandr.default_device (xrandr self) in
  let? _ := r in Ok (set_xrandr tool self).

Definition call_del_monitor (name : string) (self : t) : res t :=
  let '(r, tool) := Xrandr.del_monitor name (xrandr self) in
  let? _ := r in Ok (set_xrandr tool self).

(** The body of the loop of [init_active_monitors], for one tuple
    [(_, name, dimensions, _)] of [Xrandr.list_monitors()]. *)
Definition init_active_monitor (self : t)
    (monitor : string * string * string * string) : res t :=
  let '(_, name, dimensions, _) := monitor in
  if startswith "PYR-" name
     && bool_decide (is_Some (enabled_displays self !! slice_from 4 name))
  then
    let name := py_replace "PYR-" "" name in
    let? '(w, h, x, y) := geometry_findall_0 dimensions in
    let? w := py_int w in
    let? h := py_int h in
    let? x := py_int x in
    let? y := py_int y in
    let? self := draw_outline name w h x y self in
    let? '(_, self) := set_state name true self in
    Ok self
  else Ok self.

Definition init_active_monitors (self : t) : res t :=
  for_each init_active_monitor (Xrandr.list_monitors (xrandr self)) self.

(** The manager as [__init__] leaves it before it calls
    [init_active_monitors]: every region disabled, no rectangle. *)
Definition fresh (screen : QSize) (buttons : gmap string bool)
    (tool : Xrandr.tool) : t :=
  mk screen (list_to_map ((fun area => (area, false)) <$> regions)) ∅
     buttons [] tool.

(** [__init__], given the screen, the push buttons the main window has
    loaded and the external tool. *)
Definition __init__ (screen : QSize) (buttons : gmap string bool)
    (tool : Xrandr.tool) : res t :=
  init_active_monitors (fresh screen buttons tool).

Definition complete_region_selection (start end_ : QPoint) (self : t) : res t :=
  let '(ref, self) := new_OutlineWidget start end_ self in
  let self := setitem_rectangles "select_region" ref self in
  call_set_monitor "select_region" (px end_ - px start) (py end_ - py start)
                   (px start) (py start) self.

Definition cancel_region_selection (self : t) : res t :=
  let? '(_, self) := set_state "select_region" false self in Ok self.

Definition select_full_screen (enabled : bool) (self : t) : res t :=
  let? '(changed, self) := set_state "full_screen" enabled self in
  if negb changed then Ok self else
  if enabled then
    let '(w, h) := screen_dimensions self in
    let? self := call_set_monitor "full_screen" w h 0 0 self in
    let '(ref, self) := new_OutlineWidget (mkQPoint 0 0) (mkQPoint w h) self in
    Ok (setitem_rectangles "full_screen" ref self)
  else call_del_monitor "full_screen" self.

(** [grid[r][c]]. *)
Definition grid_at (r c : nat) (grid : list (list cell)) : res cell :=
  match grid !! r with
  | Some row => match row !! c with
                | Some d => Ok d
                | None => Raise IndexError
                end
  | None => Raise IndexError
  end.

(** The fifteen handlers of the grid regions have one body; they differ
    in the region's name, the number of parts and the index of the cell
    in the grid. *)
Definition select_cell (area : string) (parts : Z) (r c : nat)
    (enabled : bool) (self : t) : res t :=
  let? '(changed, self) := set_state area enabled self in
  if negb changed then Ok self else
  if enabled then
    let? grid := divide_screen self parts in
    let? '(w, h, x, y) := grid_at r c grid in
    let? self := call_set_monitor area w h x y self in
    draw_outline area w h x y self
  else call_del_monitor area self.

Definition select_left_half := select_cell "left_half" 2 0 0.
Definition select_right_half := select_cell "right_half" 2 0 1.
Definition select_left_third := select_cell "left_third" 3 0 0.
Definition select_center_third := select_cell "center_third" 3 0 1.
Definition select_right_third := select_cell "right_third" 3 0 2.
Definition select_top_left_quarter := select_cell "top_left_quarter" 4 0 0.
Definition select_top_right_quarter := select_cell "top_right_quarter" 4 0 1.
Definition select_bottom_left_quarter := select_cell "bottom_left_quarter" 4 1 0.
Definition select_bottom_right_quarter := select_cell "bottom_right_quarter" 4 1 1.
Definition select_top_left_sixth := select_cell "top_left_sixth" 6 0 0.
Definition select_top_center_sixth := select_cell "top_center_sixth" 6 0 1.
Definition select_top_right_sixth := select_cell "top_right_sixth" 6 0 2.
Definition select_bottom_left_sixth := select_cell "bottom_left_sixth" 6 1 0.
Definition select_bottom_center_sixth := select_cell "bottom_center_sixth" 6 1 1.
Definition select_bottom_right_sixth := select_cell "bottom_right_sixth" 6 1 2.

(** [select_region] also reaches [self.main_window.region_selector]: it
    acts on the manager together with that widget, whose callbacks act
    on the manager. *)
Record main_window : Type := mk_main_window {
  manager : t;
  region_selector : SnippingWidget.t t
}.

Definition select_region (enabled : bool) (self : main_window)
  : res main_window :=
  let? '(changed, m) := set_state "select_region" enabled (manager self) in
  if negb changed then Ok (mk_main_window m (region_selector self)) else
  if enabled then
    Ok (mk_main_window m
          (SnippingWidget.start (Some complete_region_selection)
                                (Some cancel_region_selection)
                                (region_selector self)))
  else
    let? m := call_del_monitor "select_region" m in
    Ok (mk_main_window m (region_selector self)).

End VirtualDisplayManager.

(** ** The main window *)

Module PyRandrWidget.

Import VirtualDisplayManager.

(** Modelled from the spec: the form [form.ui] loaded by [load_ui] is not
    part of the sources; it binds one named, checkable push button to
    each region, all unchecked at start. *)
Definition form_buttons : gmap string bool :=
  list_to_map ((fun area => ("push_button_" +:+ area, false)) <$> regions).

(** [__init__]: the manager is built (and reads the active monitors)
    before the handlers are connected and the selector is created. *)
Definition __init__ (screen : QSize) (tool : Xrandr.tool) : res main_window :=
  let? m := VirtualDisplayManager.__init__ screen form_buttons tool in
  Ok (mk_main_window m SnippingWidget.__init__).

(** A handler of the manager as a handler of the window. *)
Definition on_manager (f : bool -> t -> res t) (enabled : bool)
    (self : main_window) : res main_window :=
  let? m := f enabled (manager self) in
  Ok (mk_main_window m (region_selector self)).

(** [connect_ui]: the slot connected to the [toggled] signal of the push
    button of each region. *)
Definition connect_ui : list (string * (bool -> main_window -> res main_window)) :=
  [("select_region", select_region);
   ("full_screen", on_manager select_full_screen);
   ("right_half", on_manager select_right_half);
   ("left_half", on_manager select_left_half);
   ("right_third", on_manager select_right_third);
   ("center_third", on_manager select_center_third);
   ("left_third", on_manager select_left_third);
   ("top_right_quarter", on_manager select_top_right_quarter);
   ("bottom_right_quarter", on_manager select_bottom_right_quarter);
   ("bottom_left_quarter", on_manager select_bottom_left_quarter);
   ("top_left_quarter", on_manager select_top_left_quarter);
   ("top_left_sixth", on_manager select_top_left_sixth);
   ("top_center_sixth", on_manager select_top_center_sixth);
   ("top_right_sixth", on_manager select_top_right_sixth);
   ("bottom_left_sixth", on_manager select_bottom_left_sixth);
   ("bottom_center_sixth", on_manager select_bottom_center_sixth);
   ("bottom_right_sixth", on_manager select_bottom_right_sixth)].

Fixpoint slot_of (area : string)
    (table : list (string * (bool -> main_window -> res main_window)))
  : option (bool -> main_window -> res main_window) :=
  match table with
  | [] => None
  | (name, f) :: table' =>
      if decide (name = area) then Some f else slot_of area table'
  end.

(** A toggle event: the button of [area] emits [toggled(checked)] and
    the slot connected to it runs to completion.  A button without a
    slot changes nothing. *)
Definition toggled (area : string) (checked : bool) (self : main_window)
  : res main_window :=
  match slot_of area connect_ui with
  | Some f => f checked self
  | None => Ok self
  end.

(** What reaches the program while it runs: a toggle event of a push
    button, or an event of the capture surface. *)
Inductive event : Type :=
  | Toggled (area : string) (checked : bool)
  | Selector (ev : SnippingWidget.event).

(** A pointer, key or paint event sent to the capture surface.  The
    events waiting in the queue are those of the whole application:
    [queue] dispatches them on the window, and the handler of the
    capture surface goes on with the widget and the manager as they are
    afterwards. *)
Definition selector_event (ev : SnippingWidget.event)
    (queue : main_window -> res main_window) (self : main_window)
  : res main_window :=
  let? '(w, m) :=
    SnippingWidget.deliver ev
      (fun w m =>
         let? self := queue (mk_main_window m w) in
         Ok (region_selector self, manager self))
      (region_selector self) (manager self) in
  Ok (mk_main_window m w).

(** The handler of an event.  The slots of the push buttons are
    connected for good and run whenever a button emits [toggled],
    whether the capture surface is shown or not; none of them looks at
    the queue, so the event loop goes on with it once the slot has
    returned. *)
Definition step (ev : event) (queue : main_window -> res main_window)
    (self : main_window) : res main_window :=
  match ev with
  | Toggled area checked =>
      let? self := toggled area checked self in queue self
  | Selector ev => selector_event ev queue self
  end.

Definition run (queue : list (queued event)) (self : main_window)
  : res main_window :=
  event_loop step queue self.

End PyRandrWidget.

(** * The vocabulary of the properties *)

Section Vocabulary.
Import VirtualDisplayManager.

(** The grid the two nested loops build, written as a comprehension. *)
Definition grid_of (pw ph rows cols : Z) : list (list cell) :=
  (fun r => (fun c => (pw, ph, pw * c, ph * r)) <$> py_range cols)
    <$> py_range rows.

(** The width and height of a cell as [divide_screen] computes them. *)
Definition grid_rows (parts : Z) : Z := if decide (parts > 3) then 2 else 1.

Definition cell_width (w parts : Z) : Z :=
  math_ceil (inject_Z w / inject_Z parts * inject_Z (grid_rows parts))%Q.

Definition cell_height (h parts : Z) : Z :=
  math_ceil (inject_Z h / inject_Z (grid_rows parts))%Q.

(** A pixel lies in a cell [(width, height, offset_x, offset_y)]. *)
Definition covers (c : cell) (x y : Z) : Prop :=
  let '(cw, ch, cx, cy) := c in cx <= x < cx + cw /\ cy <= y < cy + ch.

(** The events of a course of events, in the order in which their
    handlers are entered. *)
Fixpoint events {E : Type} (q : queued E) : list E :=
  match q with
  | Queued ev pending => ev :: concat (events <$> pending)
  end.

Definition events_of {E : Type} (queue : list (queued E)) : list E :=
  concat (events <$> queue).

(** Events that arrive one at a time: none waits in the queue while the
    handler of another runs. *)
Definition one_by_one {E : Type} (evs : list E) : list (queued E) :=
  (fun ev => Queued ev []) <$> evs.

(** The handler of [ev] returns without processing events: whatever
    waits in the queue is dispatched after it. *)
Definition passive {E S : Type} (handle : E -> (S -> res S) -> S -> res S)
    (ev : E) : Prop :=
  forall queue s, handle ev queue s = let? s' := handle ev Ok s in queue s'.

(** A tool that has run nothing yet and always exits with status 0. *)
Definition obliging_tool : Xrandr.tool := Xrandr.mkTool [] (fun _ _ => 0) [].

(** The main window on a 1920x1080 screen when the tool reports no
    monitor: no region enabled, no capture. *)
Definition fresh_window : main_window :=
  mk_main_window
    (fresh (mkQSize 1920 1080) PyRandrWidget.form_buttons obliging_tool)
    SnippingWidget.__init__.

(** What an observer of the two callbacks records, in order. *)
Inductive fired : Type :=
  | Completed (top_left bottom_right : QPoint)
  | Cancelled.

Definition on_completed (top_left bottom_right : QPoint) (log : list fired)
  : res (list fired) := Ok (log ++ [Completed top_left bottom_right]).

Definition on_cancelled (log : list fired) : res (list fired) :=
  Ok (log ++ [Cancelled]).

(** The rectangle spanned by two points, as its top-left and bottom-right
    corners. *)
Definition top_left (p q : QPoint) : QPoint :=
  mkQPoint (Z.min (px p) (px q)) (Z.min (py p) (py q)).

Definition bottom_right (p q : QPoint) : QPoint :=
  mkQPoint (Z.max (px p) (px q)) (Z.max (py p) (py q)).

Section SelectorStates.
Import SnippingWidget.
Context {W : Type}.
Implicit Types (w : SnippingWidget.t W).


(** The widget after a release that ends a capture started from [w0]
    with the cancel callback [x]. *)
Definition released (x : option (W -> res W)) w0 : SnippingWidget.t W :=
  SnippingWidget.mk false QPoint_null QPoint_null None x false 0
    WindowFullScreen WindowActive (override_cursors w0).

(** The widget while a capture started from [w0] is going on. *)
Definition capturing (c : option (QPoint -> QPoint -> W -> res W))
    (x : option (W -> res W)) (b e : QPoint) w0 : SnippingWidget.t W :=
  SnippingWidget.mk true b e c x true (3 # 10)
    WindowFullScreen WindowMinimized (CrossCursor :: override_cursors w0).

(** The widget when the handler of a release that ends such a capture
    calls [processEvents()]. *)
Definition releasing (c : option (QPoint -> QPoint -> W -> res W))
    (x : option (W -> res W)) w0 : SnippingWidget.t W :=
  SnippingWidget.mk false QPoint_null QPoint_null c x true 0
    WindowFullScreen WindowActive (override_cursors w0).


(** The events that end a capture. *)
Definition ends_capture (ev : event) : bool :=
  match ev with
  | MouseRelease _ | KeyPress Key_Escape => true
  | _ => false
  end.





End SelectorStates.




(** The command line of [Xrandr.set_monitor]. *)
Definition setmonitor_argv (name : string) (w h x y : Z) : list string :=
  ["xrandr"; "--setmonitor"; "PYR-" +:+ name;
   pretty w +:+ "/1x" +:+ pretty h +:+ "/1+" +:+ pretty x +:+ "+" +:+ pretty y;
   Xrandr.default_device].

Definition delmonitor_argv (name : string) : list string :=
  ["xrandr"; "--delmonitor"; "PYR-" +:+ name].

(** The tool after one more command line. *)
Definition ran (argv : list string) (tool : Xrandr.tool) : Xrandr.tool :=
  Xrandr.mkTool (Xrandr.calls tool ++ [argv]) (Xrandr.exit_status tool)
                (Xrandr.monitors tool).

(** The flag and the button after an effective [set_state]. *)
Definition flagged (area : string) (x : bool) (self : t) : t :=
  set_push_buttons (<["push_button_" +:+ area := x]> (push_buttons self))
    (set_enabled_displays (<[area := x]> (enabled_displays self)) self).

(** Region [area] has a live overlay: [rectangles] refers to an outline
    widget whose window exists. *)
Definition live_overlay (self : t) (area : string) : Prop :=
  exists ref o,
    rectangles self !! area = Some ref /\
    outlines self !! ref = Some o /\ OutlineWidget.alive o = true.

(** The flag of every region is true exactly when the region has a live
    overlay. *)
Definition store_matches_overlays (self : t) : Prop :=
  forall area, area ∈ regions ->
    enabled_displays self !! area = Some true <-> live_overlay self area.

(** The invariant of the manager: the keys of the two dicts and the
    buttons of the form; for every region but [select_region], a
    rectangle exactly when the flag is true; every rectangle refers to a
    live outline widget, every live outline widget is referred to, and
    no two regions share one. *)
Record manager_inv (self : t) : Prop := mk_manager_inv {
  inv_keys : forall area,
    is_Some (enabled_displays self !! area) <-> area ∈ regions;
  inv_buttons : forall area, area ∈ regions ->
    is_Some (push_buttons self !! ("push_button_" +:+ area));
  inv_regions : forall area ref,
    rectangles self !! area = Some ref -> area ∈ regions;
  inv_flag : forall area ref,
    area <> "select_region" ->
    rectangles self !! area = Some ref ->
    enabled_displays self !! area = Some true;
  inv_overlay : forall area,
    area <> "select_region" ->
    enabled_displays self !! area = Some true ->
    is_Some (rectangles self !! area);
  inv_live : forall area ref,
    rectangles self !! area = Some ref ->
    exists o, outlines self !! ref = Some o /\ OutlineWidget.alive o = true;
  inv_owned : forall ref o,
    outlines self !! ref = Some o -> OutlineWidget.alive o = true ->
    exists area, rectangles self !! area = Some ref;
  inv_inj : forall a a' ref,
    rectangles self !! a = Some ref -> rectangles self !! a' = Some ref ->
    a = a'
}.

(** A capture started by [select_region] is going on: the surface is
    shown and will call the manager back. *)
Definition capture_pending (w : SnippingWidget.t t) : Prop :=
  SnippingWidget.visible w = true /\
  SnippingWidget.onSnippingCompleted w = Some complete_region_selection /\
  SnippingWidget.onSnippingCancelled w = Some cancel_region_selection.

(** The callbacks of the capture surface are the manager's, if any. *)
Definition callbacks_known (w : SnippingWidget.t t) : Prop :=
  (SnippingWidget.onSnippingCompleted w = None \/
   SnippingWidget.onSnippingCompleted w = Some complete_region_selection) /\
  (SnippingWidget.onSnippingCancelled w = None \/
   SnippingWidget.onSnippingCancelled w = Some cancel_region_selection).

(** The invariant of the program: that of the manager, and
    [select_region] is enabled without a rectangle only while a capture
    is going on. *)
Definition window_inv (win : main_window) : Prop :=
  manager_inv (manager win) /\
  callbacks_known (region_selector win) /\
  (enabled_displays (manager win) !! "select_region" = Some true ->
   is_Some (rectangles (manager win) !! "select_region") \/
   capture_pending (region_selector win)).

(** The handlers that return without processing events: the slots of
    the push buttons, and those of the capture surface that do not end
    the capture. *)
Definition ends_capture_on_window (ev : PyRandrWidget.event) : bool :=
  match ev with
  | PyRandrWidget.Toggled _ _ => false
  | PyRandrWidget.Selector ev => ends_capture ev
  end.

(** The flags after a handler has dealt with region [area]: the keys are
    the same, the flags of the other regions too, and the flag of [area]
    is now [x], unless the region is [select_region], whose flag is not
    tied to its rectangle. *)
Definition flags_follow (ed ed' : gmap string bool) (area : string) (x : bool)
  : Prop :=
  (forall a, is_Some (ed' !! a) <-> is_Some (ed !! a)) /\
  (forall a, a <> area -> ed' !! a = ed !! a) /\
  (area <> "select_region" -> ed' !! area = Some x).

(** What a handler of another region leaves alone. *)
Definition same_select_region (self self' : t) : Prop :=
  enabled_displays self' !! "select_region"
  = enabled_displays self !! "select_region" /\
  rectangles self' !! "select_region"
  = rectangles self !! "select_region".

(** At start-up a region is enabled together with its overlay,
    [select_region] too. *)
Definition startup_inv (self : t) : Prop :=
  manager_inv self /\
  (enabled_displays self !! "select_region" = Some true ->
   is_Some (rectangles self !! "select_region")).

End Vocabulary.

(** The fifteen grid handlers as instances of [select_cell]. *)
Ltac unfold_handlers :=
  unfold VirtualDisplayManager.select_left_half, VirtualDisplayManager.select_right_half, VirtualDisplayManager.select_left_third,
    VirtualDisplayManager.select_center_third, VirtualDisplayManager.select_right_third, VirtualDisplayManager.select_top_left_quarter,
    VirtualDisplayManager.select_top_right_quarter, VirtualDisplayManager.select_bottom_left_quarter,
    VirtualDisplayManager.select_bottom_right_quarter, VirtualDisplayManager.select_top_left_sixth,
    VirtualDisplayManager.select_top_center_sixth, VirtualDisplayManager.select_top_right_sixth,
    VirtualDisplayManager.select_bottom_left_sixth, VirtualDisplayManager.select_bottom_center_sixth,
    VirtualDisplayManager.select_bottom_right_sixth in *.

(** * Properties *)

(** ** Loops and ranges *)

Lemma for_each_app {A B} (f : B -> A -> res B) (l1 l2 : list A) (acc : B) :
  for_each f (l1 ++ l2) acc = let? a := for_each f l1 acc in for_each f l2 a.
Proof.
  revert acc. induction l1 as [|x l1 IH]; intros acc; simpl; [done|].
  destruct (f acc x) as [acc'|e]; simpl; [apply IH | done].
Qed.

Lemma for_each_cons {A B} (f : B -> A -> res B) (x : A) (l : list A) (acc : B) :
  for_each f (x :: l) acc = let? acc' := f acc x in for_each f l acc'.
Proof. done. Qed.

Lemma res_bind_Ok {A B} (a : A) (k : A -> res B) : res_bind (Ok a) k = k a.
Proof. done. Qed.

(** The last element of a list that has one does not depend on the
    default. *)
Lemma last_cons_default {A} (l : list A) (a d d' : A) :
  List.last (a :: l) d = List.last (a :: l) d'.
Proof.
  revert a. induction l as [|b l IH]; intros a; [done|].
  change (List.last (b :: l) d = List.last (b :: l) d'). apply IH.
Qed.

Lemma py_range_of_nat (n : nat) :
  py_range (Z.of_nat n) = Z.of_nat <$> seq 0 n.
Proof. unfold py_range. by rewrite Nat2Z.id. Qed.

Lemma py_range_length (n : Z) : length (py_range n) = Z.to_nat n.
Proof. unfold py_range. by rewrite length_fmap, length_seq. Qed.

Lemma py_range_lookup (n : Z) (i : nat) :
  (i < Z.to_nat n)%nat -> py_range n !! i = Some (Z.of_nat i).
Proof.
  intros Hi. unfold py_range. rewrite list_lookup_fmap.
  by rewrite lookup_seq_lt.
Qed.

(** ** The partitioner *)

Section Partitioner.
Import VirtualDisplayManager.

Lemma inner_loop (g : Z -> cell) (n : nat) (r : Z) (row : list cell)
    (result : list (list cell)) :
  0 <= r ->
  result !! Z.to_nat r = Some row ->
  for_each (fun result c => append_at r (g c) result)
           (Z.of_nat <$> seq 0 n) result
  = Ok (<[Z.to_nat r := row ++ (g <$> (Z.of_nat <$> seq 0 n))]> result).
Proof.
  intros Hr Hrow. induction n as [|n IH].
  - simpl. rewrite app_nil_r. by rewrite list_insert_id.
  - rewrite seq_S, !fmap_app, for_each_app, IH. simpl.
    unfold append_at. destruct (decide (r < 0)) as [|_]; [lia|].
    rewrite list_lookup_insert_eq by (by eapply lookup_lt_Some).
    by rewrite list_insert_insert_eq, <- app_assoc.
Qed.

Lemma outer_loop (pw ph cols : Z) (m : nat) :
  for_each (fun result r =>
      let result := result ++ [[]] in
      for_each (fun result c => append_at r (pw, ph, pw * c, ph * r) result)
               (py_range cols) result)
    (Z.of_nat <$> seq 0 m) []
  = Ok ((fun r => (fun c => (pw, ph, pw * c, ph * r)) <$> py_range cols)
          <$> (Z.of_nat <$> seq 0 m)).
Proof.
  induction m as [|m IH]; [done|].
  rewrite seq_S, !fmap_app, for_each_app, IH. simpl.
  set (rows_done := _ <$> (Z.of_nat <$> seq 0 m)).
  assert (Hlen : length rows_done = m).
  { unfold rows_done. by rewrite !length_fmap, length_seq. }
  clearbody rows_done. unfold py_range at 1.
  rewrite (inner_loop (fun c => (pw, ph, pw * c, ph * Z.of_nat m)) _ _ []).
  - rewrite Nat2Z.id. simpl. f_equal.
    rewrite insert_app_r_alt by lia.
    by rewrite Hlen, Nat.sub_diag.
  - lia.
  - rewrite Nat2Z.id, lookup_app_r by lia.
    by rewrite Hlen, Nat.sub_diag.
Qed.

Lemma divide_screen_grid (self : t) (parts : Z) :
  parts <> 0 ->
  divide_screen self parts
  = Ok (grid_of (cell_width (size_width (screen self)) parts)
                (cell_height (size_height (screen self)) parts)
                (grid_rows parts) (parts `div` grid_rows parts)).
Proof.
  intros Hparts. unfold divide_screen, screen_dimensions, py_truediv.
  fold (grid_rows parts).
  destruct (decide (parts = 0)) as [|_]; [done|]. simpl.
  destruct (decide (grid_rows parts = 0)) as [H0|_].
  { unfold grid_rows in H0. by destruct (decide (parts > 3)). }
  simpl. unfold grid_of.
  replace (py_range (grid_rows parts))
    with (Z.of_nat <$> seq 0 (Z.to_nat (grid_rows parts))) by done.
  apply outer_loop.
Qed.

End Partitioner.

(** ** Ceilings *)

(** [math.ceil(a / p * r)] over the integers, for a positive [p]. *)
Lemma math_ceil_div_mul (a r : Z) (p : positive) :
  math_ceil (inject_Z a / inject_Z (Z.pos p) * inject_Z r)%Q
  = - ((- (a * r)) `div` Z.pos p).
Proof.
  unfold math_ceil, Qceiling, Qfloor, Qdiv, Qmult, Qinv, Qopp, inject_Z. simpl.
  rewrite Pos.mul_1_r, Z.mul_1_r. done.
Qed.

Lemma math_ceil_div (a : Z) (p : positive) :
  math_ceil (inject_Z a / inject_Z (Z.pos p))%Q = - ((- a) `div` Z.pos p).
Proof.
  unfold math_ceil, Qceiling, Qfloor, Qdiv, Qmult, Qinv, Qopp, inject_Z. simpl.
  rewrite Z.mul_1_r. done.
Qed.

(** What makes [- (- a / p)] the ceiling of [a / p]. *)
Lemma ceiling_bounds (a p : Z) :
  0 < p -> p * (- ((- a) `div` p) - 1) < a <= p * - ((- a) `div` p).
Proof.
  intros Hp.
  pose proof (Z.mul_div_le (- a) p Hp).
  pose proof (Z.mul_succ_div_gt (- a) p Hp).
  lia.
Qed.

Section PartitionerFacts.
Import VirtualDisplayManager.

Lemma grid_rows_pos (parts : Z) : 0 < grid_rows parts.
Proof. unfold grid_rows. destruct (decide (parts > 3)); lia. Qed.

Lemma cell_width_bounds (w parts : Z) :
  0 < parts ->
  parts * (cell_width w parts - 1) < w * grid_rows parts
    <= parts * cell_width w parts.
Proof.
  intros Hp. unfold cell_width.
  destruct parts as [|p|p]; try lia.
  rewrite math_ceil_div_mul. by apply ceiling_bounds.
Qed.

Lemma cell_height_bounds (h parts : Z) :
  grid_rows parts * (cell_height h parts - 1) < h
    <= grid_rows parts * cell_height h parts.
Proof.
  unfold cell_height. pose proof (grid_rows_pos parts) as Hr.
  destruct (grid_rows parts) as [|p|p]; try lia.
  rewrite math_ceil_div. by apply ceiling_bounds.
Qed.

Lemma grid_of_length (pw ph rows cols : Z) :
  length (grid_of pw ph rows cols) = Z.to_nat rows.
Proof. unfold grid_of. by rewrite length_fmap, py_range_length. Qed.

Lemma grid_of_row_length (pw ph rows cols : Z) (row : list cell) :
  row ∈ grid_of pw ph rows cols -> length row = Z.to_nat cols.
Proof.
  unfold grid_of. intros (r & -> & _)%list_elem_of_fmap.
  by rewrite length_fmap, py_range_length.
Qed.

Lemma grid_at_grid_of (pw ph rows cols : Z) (r c : nat) (a : cell) :
  grid_at r c (grid_of pw ph rows cols) = Ok a <->
  (r < Z.to_nat rows)%nat /\ (c < Z.to_nat cols)%nat /\
  a = (pw, ph, pw * Z.of_nat c, ph * Z.of_nat r).
Proof.
  unfold grid_at, grid_of. rewrite list_lookup_fmap.
  destruct (decide (r < Z.to_nat rows)%nat) as [Hr|Hr].
  - rewrite py_range_lookup by done. simpl. rewrite list_lookup_fmap.
    destruct (decide (c < Z.to_nat cols)%nat) as [Hc|Hc].
    + rewrite py_range_lookup by done. simpl.
      split; [by intros [= <-] | by intros (_ & _ & ->)].
    + rewrite (lookup_ge_None_2 (py_range cols)); simpl.
      * split; [done | intros (_ & ? & _); lia].
      * rewrite py_range_length. lia.
  - rewrite (lookup_ge_None_2 (py_range rows)); simpl.
    + split; [done | intros (? & _); lia].
    + rewrite py_range_length. lia.
Qed.

Lemma supported_parts (parts : Z) :
  parts ∈ [2; 3; 4; 6] ->
  (parts = 2 /\ grid_rows parts = 1) \/ (parts = 3 /\ grid_rows parts = 1) \/
  (parts = 4 /\ grid_rows parts = 2) \/ (parts = 6 /\ grid_rows parts = 2).
Proof.
  rewrite !elem_of_cons, elem_of_nil.
  intros [->|[->|[->|[->|[]]]]]; unfold grid_rows; simpl; tauto.
Qed.

End PartitionerFacts.

Section PartitionerClaims.
Import VirtualDisplayManager.

(** C3. For every screen size and [parts] in {2, 3, 4, 6},
    [divide_screen] returns a grid of [rows = 2 if parts > 3 else 1] rows
    of [parts / rows] cells; every cell has width
    [ceil(w / parts * rows)] and height [ceil(h / rows)], and the cell
    in row [r], column [c] starts at [(width * c, height * r)].  The two
    ceilings are the integer ones: [parts * (pw - 1) < w * rows <= parts * pw]
    and [rows * (ph - 1) < h <= rows * ph].  On a 1920x1080 screen, 4
    parts are the four 960x540 cells at (0,0), (960,0), (0,540),
    (960,540). *)
Theorem divide_screen_cells (self : t) (parts : Z) :
  parts ∈ [2; 3; 4; 6] ->
  let w := size_width (screen self) in
  let h := size_height (screen self) in
  let rows := if decide (parts > 3) then 2 else 1 in
  let cols := parts `div` rows in
  let pw := math_ceil (inject_Z w / inject_Z parts * inject_Z rows)%Q in
  let ph := math_ceil (inject_Z h / inject_Z rows)%Q in
  exists grid,
    divide_screen self parts = Ok grid /\
    Z.of_nat (length grid) = rows /\
    (forall row, row ∈ grid -> Z.of_nat (length row) = cols) /\
    (forall r c : nat,
        Z.of_nat r < rows -> Z.of_nat c < cols ->
        grid_at r c grid = Ok (pw, ph, pw * Z.of_nat c, ph * Z.of_nat r)) /\
    parts * (pw - 1) < w * rows <= parts * pw /\
    rows * (ph - 1) < h <= rows * ph /\
    (w = 1920 -> h = 1080 -> parts = 4 ->
     grid = [[(960, 540, 0, 0); (960, 540, 960, 0)];
             [(960, 540, 0, 540); (960, 540, 960, 540)]]).
Proof.
  intros Hparts w h rows cols pw ph.
  assert (Hpos : 0 < parts /\ 0 < rows /\ 0 <= cols).
  { apply supported_parts in Hparts. unfold cols, rows.
    destruct Hparts as [[-> _]|[[-> _]|[[-> _]|[-> _]]]]; by vm_compute. }
  destruct Hpos as (Hp & Hr & Hc).
  exists (grid_of pw ph rows cols). split; [|split; [|split; [|split; [|split; [|split]]]]].
  - apply divide_screen_grid. lia.
  - rewrite grid_of_length. apply Z2Nat.id. lia.
  - intros row Hrow. rewrite (grid_of_row_length _ _ _ _ _ Hrow).
    by apply Z2Nat.id.
  - intros r c Hlt_r Hlt_c. apply grid_at_grid_of.
    split; [|split; [|done]]; apply Nat2Z.inj_lt; rewrite Z2Nat.id; lia.
  - apply (cell_width_bounds w parts Hp).
  - apply (cell_height_bounds h parts).
  - intros Hw Hh ->. unfold pw, ph, cols, rows. rewrite Hw, Hh. by vm_compute.
Qed.

Lemma divide_screen_cells_witness :
  exists grid,
    divide_screen (mk (mkQSize 1920 1080) ∅ ∅ ∅ [] (Xrandr.mkTool [] (fun _ _ => 0) [])) 4
    = Ok grid /\
    grid = [[(960, 540, 0, 0); (960, 540, 960, 0)];
            [(960, 540, 0, 540); (960, 540, 960, 540)]].
Proof.
  destruct (divide_screen_cells
              (mk (mkQSize 1920 1080) ∅ ∅ ∅ [] (Xrandr.mkTool [] (fun _ _ => 0) []))
              4) as (grid & Hgrid & _ & _ & _ & _ & _ & Hscenario).
  - rewrite !elem_of_cons. tauto.
  - exists grid. split; [exact Hgrid | by apply Hscenario].
Defined.

End PartitionerClaims.

Section PartitionerTiling.
Import VirtualDisplayManager.

Lemma supported_grid (parts : Z) :
  parts ∈ [2; 3; 4; 6] ->
  0 < grid_rows parts /\ 0 < parts `div` grid_rows parts /\
  parts = grid_rows parts * (parts `div` grid_rows parts).
Proof.
  intros Hparts. apply supported_parts in Hparts.
  destruct Hparts as [[-> ->]|[[-> ->]|[[-> ->]|[-> ->]]]]; by vm_compute.
Qed.

(** Cells of one grid that share a pixel are the same cell. *)
Lemma cells_disjoint (pw ph : Z) (r c r' c' : nat) (x y : Z) :
  0 < pw -> 0 < ph ->
  covers (pw, ph, pw * Z.of_nat c, ph * Z.of_nat r) x y ->
  covers (pw, ph, pw * Z.of_nat c', ph * Z.of_nat r') x y ->
  (r, c) = (r', c').
Proof.
  unfold covers. intros Hpw Hph [Hx Hy] [Hx' Hy'].
  assert (Z.of_nat c = Z.of_nat c') by nia.
  assert (Z.of_nat r = Z.of_nat r') by nia.
  f_equal; lia.
Qed.

(** Every pixel below [cols * pw] by [rows * ph] lies in a cell. *)
Lemma cells_cover (pw ph rows cols x y : Z) :
  0 < pw -> 0 < ph ->
  0 <= x < cols * pw -> 0 <= y < rows * ph ->
  exists (r c : nat) (a : cell),
    grid_at r c (grid_of pw ph rows cols) = Ok a /\ covers a x y.
Proof.
  intros Hpw Hph Hx Hy.
  pose proof (Z.mul_div_le x pw Hpw). pose proof (Z.mul_succ_div_gt x pw Hpw).
  pose proof (Z.mul_div_le y ph Hph). pose proof (Z.mul_succ_div_gt y ph Hph).
  assert (0 <= x `div` pw < cols) as Hc.
  { split; [apply Z.div_pos; lia | apply Z.div_lt_upper_bound; lia]. }
  assert (0 <= y `div` ph < rows) as Hr.
  { split; [apply Z.div_pos; lia | apply Z.div_lt_upper_bound; lia]. }
  exists (Z.to_nat (y `div` ph)), (Z.to_nat (x `div` pw)).
  eexists. split.
  - apply grid_at_grid_of. split; [lia|]. split; [lia|done].
  - unfold covers. rewrite !Z2Nat.id by lia. lia.
Qed.

Lemma column_bounds (parts rows cols pw w : Z) :
  0 < rows -> parts = rows * cols ->
  parts * (pw - 1) < w * rows <= parts * pw ->
  cols * (pw - 1) < w <= cols * pw.
Proof. intros Hrows -> Hb. nia. Qed.

(** C4. For [parts] in {2, 3, 4, 6} and a screen of positive width and
    height, the cells returned by [divide_screen] do not overlap (two
    cells at different grid positions share no pixel), every pixel of
    the screen lies in a cell, and the rounding excess is below one
    pixel per cell in each dimension: the columns together exceed the
    screen width by less than their number, the rows the height by less
    than theirs, and never fall short. *)
Theorem divide_screen_tiles (self : t) (parts : Z) :
  parts ∈ [2; 3; 4; 6] ->
  0 < size_width (screen self) ->
  0 < size_height (screen self) ->
  let w := size_width (screen self) in
  let h := size_height (screen self) in
  let rows := if decide (parts > 3) then 2 else 1 in
  let cols := parts `div` rows in
  exists grid,
    divide_screen self parts = Ok grid /\
    (forall (r c r' c' : nat) (a b : cell),
        grid_at r c grid = Ok a -> grid_at r' c' grid = Ok b ->
        (r, c) <> (r', c') ->
        forall x y, ~ (covers a x y /\ covers b x y)) /\
    (forall x y, 0 <= x < w -> 0 <= y < h ->
        exists (r c : nat) (a : cell), grid_at r c grid = Ok a /\ covers a x y) /\
    (forall (r c : nat) (cw ch cx cy : Z),
        grid_at r c grid = Ok (cw, ch, cx, cy) ->
        0 <= cols * cw - w < cols /\ 0 <= rows * ch - h < rows).
Proof.
  intros Hparts Hw Hh w h rows cols.
  destruct (supported_grid parts Hparts) as (Hrows & Hcols & Hprod).
  change (grid_rows parts) with rows in Hrows, Hcols, Hprod.
  change (parts `div` rows) with cols in Hcols, Hprod.
  change (size_width (screen self)) with w in Hw.
  change (size_height (screen self)) with h in Hh.
  set (pw := cell_width w parts). set (ph := cell_height h parts).
  assert (Hparts_pos : 0 < parts).
  { rewrite Hprod. by apply Z.mul_pos_pos. }
  assert (Hpw : cols * (pw - 1) < w <= cols * pw).
  { apply (column_bounds parts rows); [done..|].
    by apply cell_width_bounds. }
  assert (Hph : rows * (ph - 1) < h <= rows * ph).
  { apply (cell_height_bounds h parts). }
  assert (Hpw_pos : 0 < pw) by (clearbody pw ph cols rows w h; nia).
  assert (Hph_pos : 0 < ph) by (clearbody pw ph cols rows w h; nia).
  exists (grid_of pw ph rows cols). split; [|split; [|split]].
  - apply divide_screen_grid. by intros ->.
  - intros r c r' c' a b Ha Hb Hne x y [Hca Hcb].
    apply grid_at_grid_of in Ha as (_ & _ & ->).
    apply grid_at_grid_of in Hb as (_ & _ & ->).
    apply Hne. by apply (cells_disjoint pw ph r c r' c' x y).
  - intros x y Hx Hy. clearbody pw ph cols rows w h.
    apply cells_cover; lia.
  - intros r c cw ch cx cy Ha.
    apply grid_at_grid_of in Ha as (_ & _ & [= -> -> _ _]).
    clearbody pw ph cols rows w h. lia.
Qed.

Lemma divide_screen_tiles_witness :
  exists grid,
    divide_screen (mk (mkQSize 1921 1081) ∅ ∅ ∅ [] (Xrandr.mkTool [] (fun _ _ => 0) [])) 6
    = Ok grid /\
    (forall x y, 0 <= x < 1921 -> 0 <= y < 1081 ->
        exists (r c : nat) (a : cell), grid_at r c grid = Ok a /\ covers a x y).
Proof.
  destruct (divide_screen_tiles
              (mk (mkQSize 1921 1081) ∅ ∅ ∅ [] (Xrandr.mkTool [] (fun _ _ => 0) []))
              6) as (grid & Hgrid & _ & Hcover & _).
  - rewrite !elem_of_cons. tauto.
  - simpl. lia.
  - simpl. lia.
  - exists grid. split; [exact Hgrid | exact Hcover].
Defined.

End PartitionerTiling.

Section PartitionerRejection.
Import VirtualDisplayManager.

(** Five parts are not among the supported counts, and are not rejected:
    the call returns a grid of two rows of two cells. *)
Lemma divide_screen_accepts_5 :
  (5 ∉ [2; 3; 4; 6]) /\
  divide_screen (mk (mkQSize 1920 1080) ∅ ∅ ∅ [] (Xrandr.mkTool [] (fun _ _ => 0) [])) 5
  = Ok [[(768, 540, 0, 0); (768, 540, 768, 0)];
        [(768, 540, 0, 540); (768, 540, 768, 540)]].
Proof.
  split; [|by vm_compute].
  rewrite !elem_of_cons, elem_of_nil. intros [?|[?|[?|[?|[]]]]]; lia.
Qed.

(** C9, as the code has it. [divide_screen] is a function of the screen
    size and of [parts] alone and changes nothing.  It does not check
    [parts]: the one value it fails on is 0 (a division by zero); for
    every other integer, in {2, 3, 4, 6} or not, it returns a grid of
    [rows = 2 if parts > 3 else 1] rows of [parts // rows] cells. *)
Theorem divide_screen_total (self self' : t) (parts : Z) :
  screen self = screen self' ->
  divide_screen self parts = divide_screen self' parts /\
  divide_screen self parts =
    if decide (parts = 0) then Raise ZeroDivisionError
    else Ok (grid_of (cell_width (size_width (screen self)) parts)
                     (cell_height (size_height (screen self)) parts)
                     (grid_rows parts) (parts `div` grid_rows parts)).
Proof.
  intros Hscreen. split.
  - unfold divide_screen, screen_dimensions. by rewrite Hscreen.
  - destruct (decide (parts = 0)) as [->|Hne].
    + unfold divide_screen, screen_dimensions, py_truediv. by simpl.
    + by apply divide_screen_grid.
Qed.

Lemma divide_screen_total_witness :
  divide_screen (mk (mkQSize 1920 1080) ∅ ∅ ∅ [] (Xrandr.mkTool [] (fun _ _ => 0) [])) 1
  = Ok [[(1920, 1080, 0, 0)]].
Proof.
  destruct (divide_screen_total
              (mk (mkQSize 1920 1080) ∅ ∅ ∅ [] (Xrandr.mkTool [] (fun _ _ => 0) []))
              (mk (mkQSize 1920 1080) ∅ ∅ ∅ [] (Xrandr.mkTool [] (fun _ _ => 0) []))
              1 eq_refl) as [_ ->].
  by vm_compute.
Defined.

End PartitionerRejection.

(** ** The command gateway *)

Section Gateway.

(** Each gateway function runs the tool exactly once, whatever the exit
    status: the command line is appended to the history and nothing is
    retried. *)
Lemma del_monitor_calls (name : string) (x : Xrandr.tool) :
  Xrandr.calls (Xrandr.del_monitor name x).2
  = Xrandr.calls x ++ [["xrandr"; "--delmonitor"; "PYR-" +:+ name]].
Proof.
  unfold Xrandr.del_monitor, Xrandr.check_call.
  by destruct (decide (_ = 0)).
Qed.

Lemma del_monitor_result (name : string) (x : Xrandr.tool) :
  (Xrandr.del_monitor name x).1
  = Ok (PyBool (bool_decide
          (Xrandr.exit_status x (Xrandr.calls x)
             ["xrandr"; "--delmonitor"; "PYR-" +:+ name] = 0))).
Proof.
  unfold Xrandr.del_monitor, Xrandr.check_call.
  destruct (decide (_ = 0)) as [H0|H0]; simpl.
  - by rewrite bool_decide_eq_true_2.
  - by rewrite bool_decide_eq_false_2.
Qed.

Lemma set_monitor_result (name : string) (w h ox oy : Z) (device : string)
    (x : Xrandr.tool) :
  (Xrandr.set_monitor name w h ox oy device x).1
  = Ok (if decide
             (Xrandr.exit_status x (Xrandr.calls x)
                ["xrandr"; "--setmonitor"; "PYR-" +:+ name;
                 pretty w +:+ "/1x" +:+ pretty h +:+ "/1+" +:+
                   pretty ox +:+ "+" +:+ pretty oy;
                 device] = 0)
        then PyNone else PyBool false).
Proof.
  unfold Xrandr.set_monitor, Xrandr.check_call.
  by destruct (decide (_ = 0)).
Qed.

(** C7, at the input where the code departs from it.  With a tool that
    exits with status 0, [del_monitor] returns [True], and [set_monitor]
    returns [None]: no boolean, and false where a truth value is asked
    for. *)
Theorem set_monitor_success_is_None :
  (Xrandr.del_monitor "left_half" obliging_tool).1 = Ok (PyBool true) /\
  (Xrandr.set_monitor "left_half" 960 1080 0 0 "none" obliging_tool).1
    = Ok PyNone /\
  truthy PyNone = false /\
  Xrandr.calls (Xrandr.set_monitor "left_half" 960 1080 0 0 "none" obliging_tool).2
    = [["xrandr"; "--setmonitor"; "PYR-left_half"; "960/1x1080/1+0+0"; "none"]].
Proof. by vm_compute. Qed.

End Gateway.

(** ** The toggle store *)

Section ToggleStore.
Import VirtualDisplayManager.

Lemma set_state_guard (area : string) (x : bool) (self : t) :
  enabled_displays self !! area = Some x ->
  set_state area x self = Ok (false, self).
Proof.
  intros Hflag. unfold set_state, check_invalid_state. rewrite Hflag. simpl.
  by rewrite bool_decide_eq_true_2.
Qed.

(** Whatever it does, a call of [set_state] that returns leaves [x]
    stored for [area]. *)
Lemma set_state_stores (area : string) (x changed : bool) (self self' : t) :
  set_state area x self = Ok (changed, self') ->
  enabled_displays self' !! area = Some x.
Proof.
  unfold set_state, check_invalid_state, setChecked, destroy_rectangle.
  destruct (enabled_displays self !! area) as [stored|] eqn:Hflag; [|done].
  simpl. case_bool_decide as Hx.
  - intros [= _ <-]. by rewrite Hflag, Hx.
  - simpl. destruct (push_buttons self !! _); [|done]. simpl.
    destruct (negb x && _); simpl.
    + destruct (rectangles self !! area); [|done]. simpl.
      intros [= _ <-]. simpl. by rewrite lookup_insert_eq.
    + intros [= _ <-]. simpl. by rewrite lookup_insert_eq.
Qed.

Lemma select_cell_guard (area : string) (parts : Z) (r c : nat) (x : bool)
    (self : t) :
  enabled_displays self !! area = Some x ->
  select_cell area parts r c x self = Ok self.
Proof. intros Hflag. unfold select_cell. by rewrite set_state_guard. Qed.

Lemma select_full_screen_guard (x : bool) (self : t) :
  enabled_displays self !! "full_screen" = Some x ->
  select_full_screen x self = Ok self.
Proof. intros Hflag. unfold select_full_screen. by rewrite set_state_guard. Qed.

Lemma select_region_guard (x : bool) (win : main_window) :
  enabled_displays (manager win) !! "select_region" = Some x ->
  select_region x win = Ok win.
Proof.
  intros Hflag. unfold select_region. rewrite set_state_guard by done.
  by destruct win.
Qed.

(** C1. When the flag stored for a region already equals [x],
    [set_state region x] returns [False] and the whole state (toggle
    store, overlays, push buttons, gateway history) is unchanged; the
    handler connected to the region's button returns at once, with no
    gateway call and no overlay built.  Hence a second consecutive
    [set_state] with the same [x] reports no change and changes
    nothing. *)
Theorem set_state_same_value (area : string) (x : bool) (win : main_window) :
  area ∈ regions ->
  enabled_displays (manager win) !! area = Some x ->
  set_state area x (manager win) = Ok (false, manager win) /\
  PyRandrWidget.toggled area x win = Ok win /\
  (forall (self self' : t) (changed : bool),
      set_state area x self = Ok (changed, self') ->
      set_state area x self' = Ok (false, self')).
Proof.
  intros Harea Hflag. split; [by apply set_state_guard|]. split.
  - unfold regions in Harea. rewrite !elem_of_cons, elem_of_nil in Harea.
    destruct win as [m sel]. simpl in Hflag.
    repeat (destruct Harea as [->|Harea];
            [first [ by apply select_region_guard
                   | unfold PyRandrWidget.toggled; simpl;
                     unfold PyRandrWidget.on_manager; simpl; unfold_handlers;
                     first [ by rewrite select_full_screen_guard
                           | by rewrite select_cell_guard ] ] |]).
    done.
  - intros self self' changed Hcall.
    apply set_state_guard. by eapply set_state_stores.
Qed.

End ToggleStore.

Section ToggleStoreWitness.
Import VirtualDisplayManager.

Lemma set_state_same_value_witness :
  PyRandrWidget.toggled "left_half" false fresh_window = Ok fresh_window.
Proof.
  destruct (set_state_same_value "left_half" false fresh_window)
    as (_ & Htoggled & _).
  - unfold regions. rewrite !elem_of_cons. tauto.
  - by vm_compute.
  - exact Htoggled.
Defined.

End ToggleStoreWitness.

(** ** The event loop *)

Section EventLoopFacts.
Context {E S : Type} (handle : E -> (S -> res S) -> S -> res S).

Lemma event_loop_cons (ev : E) (pending rest : list (queued E)) (s : S) :
  event_loop handle (Queued ev pending :: rest) s
  = let? s' := handle ev (event_loop handle pending) s in
    event_loop handle rest s'.
Proof. reflexivity. Qed.

Lemma event_loop_app (l1 l2 : list (queued E)) (s : S) :
  event_loop handle (l1 ++ l2) s
  = let? s' := event_loop handle l1 s in event_loop handle l2 s'.
Proof. apply for_each_app. Qed.

(** Induction on a course of events: on the events that wait behind the
    first one, and on those that follow it. *)
Lemma queue_ind (P : list (queued E) -> Prop) :
  P [] ->
  (forall ev pending rest, P pending -> P rest -> P (Queued ev pending :: rest)) ->
  forall queue, P queue.
Proof.
  intros Hnil Hcons.
  assert (Hq : forall q rest, P rest -> P (q :: rest)).
  { fix IH 1. intros [ev pending] rest Hrest. apply Hcons; [|exact Hrest].
    induction pending as [|q pending IHp]; [exact Hnil|]. by apply IH. }
  intros queue. induction queue as [|q queue IHq]; [exact Hnil|]. by apply Hq.
Qed.

(** A property that every handler keeps, given that the dispatch of the
    queue keeps it, holds after any course of events. *)
Lemma event_loop_invariant (I : S -> Prop) :
  (forall ev queue s,
      (forall s0, I s0 -> exists s1, queue s0 = Ok s1 /\ I s1) ->
      I s -> exists s', handle ev queue s = Ok s' /\ I s') ->
  forall queue s, I s -> exists s', event_loop handle queue s = Ok s' /\ I s'.
Proof.
  intros Hstep queue. induction queue as [|ev pending rest IHp IHr] using queue_ind;
    intros s Hs.
  - by exists s.
  - rewrite event_loop_cons.
    destruct (Hstep ev (event_loop handle pending) s IHp Hs) as (s1 & -> & Hs1).
    rewrite res_bind_Ok. by apply IHr.
Qed.

Lemma events_of_cons (ev : E) (pending rest : list (queued E)) :
  events_of (Queued ev pending :: rest)
  = ev :: events_of pending ++ events_of rest.
Proof. reflexivity. Qed.

Lemma events_of_nil (queue : list (queued E)) :
  events_of queue = [] -> queue = [].
Proof. by destruct queue as [|[ev pending] rest]. Qed.

Lemma events_of_one_by_one (evs : list E) :
  events_of (one_by_one evs) = evs.
Proof.
  induction evs as [|ev evs IH]; [done|].
  change (one_by_one (ev :: evs)) with (Queued ev [] :: one_by_one evs).
  rewrite events_of_cons. simpl. by rewrite IH.
Qed.

Lemma one_by_one_app (l1 l2 : list E) :
  one_by_one (l1 ++ l2) = one_by_one l1 ++ one_by_one l2.
Proof. apply fmap_app. Qed.

Lemma event_loop_one (ev : E) (evs : list E) (s : S) :
  event_loop handle (one_by_one (ev :: evs)) s
  = let? s' := handle ev Ok s in event_loop handle (one_by_one evs) s'.
Proof. reflexivity. Qed.

(** Events whose handlers do not process events are dispatched in
    order, whenever they arrive. *)
Lemma event_loop_passive (queue : list (queued E)) (s : S) :
  Forall (passive handle) (events_of queue) ->
  event_loop handle queue s = event_loop handle (one_by_one (events_of queue)) s.
Proof.
  revert s. induction queue as [|ev pending rest IHp IHr] using queue_ind;
    intros s Hpassive; [done|].
  rewrite events_of_cons in *.
  apply Forall_cons in Hpassive as [Hev Hpassive].
  apply Forall_app in Hpassive as [Hpending Hrest].
  rewrite event_loop_cons, event_loop_one, one_by_one_app, Hev.
  destruct (handle ev Ok s) as [s1|err]; [|done]. rewrite !res_bind_Ok.
  rewrite event_loop_app, IHp by done.
  destruct (event_loop handle (one_by_one (events_of pending)) s1) as [s2|err];
    [|done].
  rewrite !res_bind_Ok. by apply IHr.
Qed.

(** The same when the last event alone has a handler that processes
    events: nothing is left in the queue for it. *)
Lemma event_loop_last (queue : list (queued E)) (evs : list E) (last : E) (s : S) :
  events_of queue = evs ++ [last] ->
  Forall (passive handle) evs ->
  event_loop handle queue s = event_loop handle (one_by_one (evs ++ [last])) s.
Proof.
  revert evs s. induction queue as [|ev pending rest IHp IHr] using queue_ind;
    intros evs s Hevents Hpassive.
  { by destruct evs. }
  rewrite events_of_cons in Hevents.
  destruct evs as [|ev' evs].
  - injection Hevents as -> Hnone.
    apply app_eq_nil in Hnone as [Hp%events_of_nil Hr%events_of_nil].
    by subst.
  - injection Hevents as <- Hevents.
    apply Forall_cons in Hpassive as [Hev Hpassive].
    rewrite event_loop_cons.
    change (one_by_one ((ev :: evs) ++ [last]))
      with (one_by_one (ev :: (evs ++ [last]))).
    rewrite event_loop_one, Hev.
    destruct (handle ev Ok s) as [s1|err]; [|done]. rewrite !res_bind_Ok.
    destruct rest as [|q rest] using rev_ind.
    + change (events_of []) with (@nil E) in Hevents.
      rewrite app_nil_r in Hevents.
      rewrite (IHp evs s1 Hevents Hpassive).
      by destruct (event_loop handle (one_by_one (evs ++ [last])) s1).
    + clear IHrest.
      assert (exists evs2, events_of (rest ++ [q]) = evs2 ++ [last] /\
                           evs = events_of pending ++ evs2) as (evs2 & Hrest & ->).
      { destruct (events_of (rest ++ [q])) as [|e l] eqn:Hl using rev_ind.
        - apply events_of_nil in Hl. by destruct rest.
        - clear IHl. rewrite app_assoc in Hevents.
          apply app_inj_tail in Hevents as [<- <-]. by exists l. }
      apply Forall_app in Hpassive as [Hpending Hpassive].
      rewrite event_loop_passive by done.
      rewrite <- app_assoc, one_by_one_app, event_loop_app.
      destruct (event_loop handle (one_by_one (events_of pending)) s1)
        as [s2|err]; [|done].
      rewrite !res_bind_Ok. by apply IHr.
Qed.

End EventLoopFacts.

(** ** The region selector *)

Section Selector.
Import SnippingWidget.
Context {W : Type}.
Implicit Types (w : SnippingWidget.t W) (world : W).
Implicit Types (queue : SnippingWidget.t W -> W -> res (SnippingWidget.t W * W)).

Lemma run_cons (ev : event) (pending rest : list (queued event)) w world :
  run (Queued ev pending :: rest) w world
  = let? '(w', world') := deliver ev (run pending) w world in run rest w' world'.
Proof.
  unfold run. rewrite event_loop_cons. unfold notify at 1. cbn [fst snd].
  by destruct (deliver ev _ w world) as [[w' world']|err].
Qed.

Lemma run_app (l1 l2 : list (queued event)) w world :
  run (l1 ++ l2) w world
  = let? '(w', world') := run l1 w world in run l2 w' world'.
Proof.
  unfold run. rewrite event_loop_app.
  by destruct (event_loop notify l1 (w, world)) as [[w' world']|err].
Qed.

(** The handlers of the events that do not end a capture return without
    processing events. *)
Lemma notify_passive (ev : event) :
  ends_capture ev = false -> passive (@notify W) ev.
Proof.
  intros Hev queue [w world]. unfold notify, deliver. cbn [fst snd].
  destruct (visible w); [|done].
  by destruct ev as [pos|pos|pos|[|code]|].
Qed.

(** A course of events in which only the last one ends the capture is
    dispatched in order, one event at a time. *)
Lemma run_sequence (queue : list (queued event)) (evs : list event)
    (last : event) w world :
  events_of queue = evs ++ [last] ->
  Forall (fun ev => ends_capture ev = false) evs ->
  run queue w world = run (one_by_one (evs ++ [last])) w world.
Proof.
  intros Hevents Hevs. unfold run. apply event_loop_last; [done|].
  eapply Forall_impl; [exact Hevs|]. apply notify_passive.
Qed.

Lemma start_capturing c x w0 :
  start c x w0 = capturing c x (begin w0) (end_ w0) w0.
Proof. done. Qed.

Lemma press_capturing c x b e w0 pos queue world :
  deliver (MousePress pos) queue (capturing c x b e w0) world
  = queue (capturing c x pos pos w0) world.
Proof. done. Qed.

Lemma move_capturing c x b e w0 pos queue world :
  deliver (MouseMove pos) queue (capturing c x b e w0) world
  = queue (capturing c x b pos w0) world.
Proof. done. Qed.



(** A release: the handler processes the events of the queue, and then
    runs the completion callback, if it is still there, on the
    rectangle the drag had reached when the handler was entered. *)
Lemma release_capturing c x b e w0 pos queue world :
  deliver (MouseRelease pos) queue (capturing c x b e w0) world
  = let? '(w, world) := queue (releasing c x w0) world in
    let? world :=
      match onSnippingCompleted w with
      | Some callback => callback (top_left b e) (bottom_right b e) world
      | None => Ok world
      end in
    Ok (close (set_onSnippingCompleted None w), world).
Proof. done. Qed.


Lemma moves_capturing c x b e w0 (ps : list QPoint) world :
  run (one_by_one (MouseMove <$> ps)) (capturing c x b e w0) world
  = Ok (capturing c x b (List.last ps e) w0, world).
Proof.
  revert e. induction ps as [|p ps IH]; intros e; [done|].
  change (one_by_one (MouseMove <$> p :: ps))
    with (Queued (MouseMove p) [] :: one_by_one (MouseMove <$> ps)).
  rewrite run_cons, move_capturing. change (run [] ?w ?s) with (Ok (w, s)).
  rewrite res_bind_Ok, IH.
  destruct ps as [|q ps]; [done|].
  by rewrite (last_cons_default ps q p e).
Qed.

(** A drag: press, any number of moves, release, whenever each of them
    arrives.  The completion callback is run once, on the normalized
    rectangle. *)
Lemma drag_runs_callback c x w0 (p0 : QPoint) (ps : list QPoint)
    (pos : QPoint) (drag : list (queued event)) world :
  events_of drag = MousePress p0 :: (MouseMove <$> ps) ++ [MouseRelease pos] ->
  run drag (start (Some c) x w0) world
  = let? world' :=
      c (top_left p0 (List.last ps p0)) (bottom_right p0 (List.last ps p0)) world in
    Ok (released x w0, world').
Proof.
  intros Hevents.
  rewrite (run_sequence drag (MousePress p0 :: (MouseMove <$> ps))
             (MouseRelease pos)); [|done|].
  2: { apply Forall_cons. split; [done|]. by apply Forall_fmap, Forall_true. }
  rewrite start_capturing.
  change (one_by_one ((MousePress p0 :: (MouseMove <$> ps)) ++ [MouseRelease pos]))
    with (Queued (MousePress p0) []
            :: one_by_one ((MouseMove <$> ps) ++ [MouseRelease pos])).
  rewrite run_cons, press_capturing. change (run [] ?w ?s) with (Ok (w, s)).
  rewrite res_bind_Ok, one_by_one_app, run_app, moves_capturing, res_bind_Ok.
  change (one_by_one [MouseRelease pos]) with [Queued (MouseRelease pos) []].
  rewrite run_cons, release_capturing. change (run [] ?w ?s) with (Ok (w, s)).
  rewrite res_bind_Ok. cbn [onSnippingCompleted releasing].
  by destruct (c _ _ world).
Qed.




End Selector.

Section SelectorClaims.
Import SnippingWidget.
Implicit Types (w : SnippingWidget.t (list fired)).

(** C5. For a press at [p0], moves to [p1], ..., [pN] and a release,
    whenever each of them arrives, after [start] the completion callback
    fires exactly once and nothing else does; its arguments are the
    componentwise minimum and maximum of [p0] and the last position
    reached ([pN], or [p0] when there was no move).  A drag from [a] to
    [b] reports the same rectangle as a drag from [b] to [a]. *)
Theorem drag_reports_normalized_rectangle w0 (p0 : QPoint)
    (ps : list QPoint) (pos : QPoint) (drag : list (queued event)) :
  events_of drag = MousePress p0 :: (MouseMove <$> ps) ++ [MouseRelease pos] ->
  let pN := List.last ps p0 in
  run drag (start (Some on_completed) (Some on_cancelled) w0) []
  = Ok (released (Some on_cancelled) w0,
        [Completed (mkQPoint (Z.min (px p0) (px pN)) (Z.min (py p0) (py pN)))
                   (mkQPoint (Z.max (px p0) (px pN)) (Z.max (py p0) (py pN)))]) /\
  (forall (a b : QPoint) (there back : list (queued event)),
      events_of there = [MousePress a; MouseMove b; MouseRelease pos] ->
      events_of back = [MousePress b; MouseMove a; MouseRelease pos] ->
      run there (start (Some on_completed) (Some on_cancelled) w0) []
      = run back (start (Some on_completed) (Some on_cancelled) w0) []).
Proof.
  intros Hdrag pN. split.
  - by rewrite (drag_runs_callback _ _ _ p0 ps pos).
  - intros a b there back Hthere Hback.
    rewrite (drag_runs_callback on_completed _ w0 a [b] pos there [] Hthere).
    rewrite (drag_runs_callback on_completed _ w0 b [a] pos back [] Hback).
    unfold on_completed, top_left, bottom_right. simpl.
    by rewrite (Z.min_comm (px a)), (Z.min_comm (py a)),
               (Z.max_comm (px a)), (Z.max_comm (py a)).
Qed.

Lemma drag_reports_normalized_rectangle_witness :
  run [Queued (MousePress (mkQPoint 500 400))
         [Queued (MouseMove (mkQPoint 300 350)) []];
       Queued (MouseMove (mkQPoint 100 200))
         [Queued (MouseRelease (mkQPoint 100 200)) []]]
      (start (Some on_completed) (Some on_cancelled) SnippingWidget.__init__) []
  = Ok (released (Some on_cancelled) SnippingWidget.__init__,
        [Completed (mkQPoint 100 200) (mkQPoint 500 400)]).
Proof.
  apply (drag_reports_normalized_rectangle SnippingWidget.__init__
           (mkQPoint 500 400) [mkQPoint 300 350; mkQPoint 100 200]
           (mkQPoint 100 200)).
  reflexivity.
Defined.

Example drag_up_left :
  run (one_by_one
         [MousePress (mkQPoint 500 400); MouseMove (mkQPoint 300 350);
          MouseMove (mkQPoint 100 200); MouseRelease (mkQPoint 100 200)])
      (start (Some on_completed) (Some on_cancelled) SnippingWidget.__init__) []
  = Ok (released (Some on_cancelled) SnippingWidget.__init__,
        [Completed (mkQPoint 100 200) (mkQPoint 500 400)]).
Proof. reflexivity. Qed.

(** *** The stages of a capture *)








End SelectorClaims.

(** ** The manager's steps, one by one *)

Section ManagerSteps.
Import VirtualDisplayManager.

(** Whatever the exit status, the manager goes on after a gateway call:
    the only trace is the command line in the tool's history. *)
Lemma call_set_monitor_eq (name : string) (w h x y : Z) (self : t) :
  call_set_monitor name w h x y self
  = Ok (set_xrandr (ran (setmonitor_argv name w h x y) (xrandr self)) self).
Proof.
  unfold call_set_monitor, Xrandr.set_monitor, Xrandr.check_call.
  by destruct (decide (_ = 0)).
Qed.

Lemma call_del_monitor_eq (name : string) (self : t) :
  call_del_monitor name self
  = Ok (set_xrandr (ran (delmonitor_argv name) (xrandr self)) self).
Proof.
  unfold call_del_monitor, Xrandr.del_monitor, Xrandr.check_call.
  by destruct (decide (_ = 0)).
Qed.

Lemma set_state_enable (area : string) (self : t) :
  enabled_displays self !! area = Some false ->
  is_Some (push_buttons self !! ("push_button_" +:+ area)) ->
  set_state area true self = Ok (true, flagged area true self).
Proof.
  intros Hflag [checked Hbutton].
  unfold set_state, check_invalid_state, setChecked. rewrite Hflag. simpl.
  by rewrite Hbutton.
Qed.

Lemma set_state_disable (area : string) (self : t) :
  enabled_displays self !! area = Some true ->
  is_Some (push_buttons self !! ("push_button_" +:+ area)) ->
  set_state area false self
  = Ok (true,
        match rectangles self !! area with
        | Some ref =>
            set_rectangles (delete area (rectangles self))
              (set_outlines (alter OutlineWidget.destroy ref (outlines self))
                 (flagged area false self))
        | None => flagged area false self
        end).
Proof.
  intros Hflag [checked Hbutton].
  unfold set_state, check_invalid_state, setChecked, destroy_rectangle.
  rewrite Hflag. simpl. rewrite Hbutton. simpl.
  by destruct (rectangles self !! area).
Qed.

(** Binding a region that has no rectangle yet deallocates nothing. *)
Lemma setitem_rectangles_fresh (area : string) (ref : nat) (self : t) :
  rectangles self !! area = None ->
  setitem_rectangles area ref self
  = set_rectangles (<[area := ref]> (rectangles self)) self.
Proof. intros Hnone. unfold setitem_rectangles. by rewrite Hnone. Qed.

(** Rebinding a region: the entry is replaced, the widget now bound is
    not the one deallocated, and nothing else changes but the outline
    widgets. *)
Lemma setitem_rectangles_spec (area : string) (ref : nat) (self : t) :
  exists os,
    setitem_rectangles area ref self
    = set_outlines os (set_rectangles (<[area := ref]> (rectangles self)) self) /\
    length os = length (outlines self) /\
    os !! ref = outlines self !! ref.
Proof.
  unfold setitem_rectangles.
  destruct (rectangles self !! area) as [old|]; [|by exists (outlines self); destruct self].
  case_bool_decide as Hold; [|by exists (outlines self); destruct self].
  eexists. split; [reflexivity|]. cbn [outlines set_rectangles].
  split; [by rewrite length_alter|].
  apply list_lookup_alter_ne. intros <-.
  cbn [rectangles set_rectangles] in Hold.
  by apply (map_Forall_lookup_1 _ _ area old Hold (lookup_insert_eq _ _ _)).
Qed.

(** The completion callback: a new outline widget for [select_region]
    and one more command line, whatever the flags. *)
Lemma complete_region_selection_spec (p q : QPoint) (self : t) :
  exists os,
    complete_region_selection p q self
    = Ok (mk (screen self) (enabled_displays self)
             (<["select_region" := length (outlines self)]> (rectangles self))
             (push_buttons self) os
             (ran (setmonitor_argv "select_region" (px q - px p) (py q - py p)
                                   (px p) (py p))
                  (xrandr self))) /\
    length os = S (length (outlines self)) /\
    os !! length (outlines self) = Some (OutlineWidget.__init__ p q).
Proof.
  unfold complete_region_selection, new_OutlineWidget.
  destruct (setitem_rectangles_spec "select_region" (length (outlines self))
              (set_outlines (outlines self ++ [OutlineWidget.__init__ p q]) self))
    as (os & -> & Hlength & Hnew).
  exists os. rewrite call_set_monitor_eq. cbn in *. split; [done|].
  rewrite Hlength, Hnew, length_app, lookup_app_r, Nat.sub_diag by done.
  split; [simpl; lia | done].
Qed.

End ManagerSteps.

(** ** The main window *)

Section MainWindow.
Import VirtualDisplayManager.

Lemma window_run_cons (ev : PyRandrWidget.event)
    (pending rest : list (queued PyRandrWidget.event)) (win : main_window) :
  PyRandrWidget.run (Queued ev pending :: rest) win
  = let? win' := PyRandrWidget.step ev (PyRandrWidget.run pending) win in
    PyRandrWidget.run rest win'.
Proof. reflexivity. Qed.

Lemma window_run_one (ev : PyRandrWidget.event) (evs : list PyRandrWidget.event)
    (win : main_window) :
  PyRandrWidget.run (one_by_one (ev :: evs)) win
  = let? win' := PyRandrWidget.step ev Ok win in
    PyRandrWidget.run (one_by_one evs) win'.
Proof. reflexivity. Qed.

(** An event of the capture surface that does not end the capture. *)
Lemma selector_event_passive (ev : SnippingWidget.event)
    (queue : main_window -> res main_window) (win : main_window) :
  ends_capture ev = false ->
  PyRandrWidget.selector_event ev queue win
  = let? win' := PyRandrWidget.selector_event ev Ok win in queue win'.
Proof.
  intros Hev. destruct win as [m w].
  unfold PyRandrWidget.selector_event, SnippingWidget.deliver.
  cbn [manager region_selector].
  assert (Heta : forall m' w',
             (let? '(w1, m1) :=
                (let? self := queue (mk_main_window m' w') in
                 Ok (region_selector self, manager self)) in
              Ok (mk_main_window m1 w1))
             = queue (mk_main_window m' w')).
  { intros m' w'. by destruct (queue _) as [[m1 w1]|err]. }
  destruct (SnippingWidget.visible w); [|by rewrite Heta].
  destruct ev as [pos|pos|pos|[|code]|]; try done;
    cbn [SnippingWidget.handle SnippingWidget.keyPressEvent res_bind];
    by rewrite Heta.
Qed.

Lemma step_passive (ev : PyRandrWidget.event) :
  ends_capture_on_window ev = false -> passive PyRandrWidget.step ev.
Proof.
  intros Hev queue win. destruct ev as [area x|ev]; cbn [PyRandrWidget.step].
  - by destruct (PyRandrWidget.toggled area x win).
  - by apply selector_event_passive.
Qed.

Lemma window_run_sequence (queue : list (queued PyRandrWidget.event))
    (evs : list PyRandrWidget.event) (last : PyRandrWidget.event)
    (win : main_window) :
  events_of queue = evs ++ [last] ->
  Forall (fun ev => ends_capture_on_window ev = false) evs ->
  PyRandrWidget.run queue win
  = PyRandrWidget.run (one_by_one (evs ++ [last])) win.
Proof.
  intros Hevents Hevs. unfold PyRandrWidget.run.
  apply event_loop_last; [done|].
  eapply Forall_impl; [exact Hevs|]. apply step_passive.
Qed.

End MainWindow.

Section DegenerateSelection.
Import VirtualDisplayManager.

Lemma toggled_select_region_true (win : main_window) :
  enabled_displays (manager win) !! "select_region" = Some false ->
  is_Some (push_buttons (manager win) !! "push_button_select_region") ->
  PyRandrWidget.toggled "select_region" true win
  = Ok (mk_main_window
          (flagged "select_region" true (manager win))
          (SnippingWidget.start (Some complete_region_selection)
                                (Some cancel_region_selection)
                                (region_selector win))).
Proof.
  intros Hflag Hbutton.
  change (PyRandrWidget.toggled "select_region" true win)
    with (select_region true win).
  unfold select_region. by rewrite set_state_enable.
Qed.

(** A press and a release on the capture surface, when nothing waits in
    the queue. *)
Lemma selector_press_alone {c x b e w0} (pos : QPoint) (m : t) :
  PyRandrWidget.selector_event (SnippingWidget.MousePress pos) Ok
    (mk_main_window m (capturing c x b e w0))
  = Ok (mk_main_window m (capturing c x pos pos w0)).
Proof. done. Qed.

Lemma selector_release_alone {c x b e w0} (pos : QPoint) (m : t) :
  PyRandrWidget.selector_event (SnippingWidget.MouseRelease pos) Ok
    (mk_main_window m (capturing (Some c) x b e w0))
  = let? m' := c (top_left b e) (bottom_right b e) m in
    Ok (mk_main_window m' (released x w0)).
Proof.
  unfold PyRandrWidget.selector_event. cbn [manager region_selector].
  rewrite release_capturing. cbn.
  by destruct (c _ _ m).
Qed.

(** C10. Let [select_region] be disabled and no capture be shown.
    After the region is toggled on:
    - a release that no press preceded, with [begin] and [end] still at
      the origin, runs the completion callback on the rectangle from
      (0,0) to (0,0): an overlay of width and height 0 is built and
      the tool is asked for the monitor [0/1x0/1+0+0];
    - a press at [p] followed at once by the release does the same
      with the rectangle from [p] to [p]: width and height 0 at [p].
    Nothing between the release and the gateway call looks at the
    size of the rectangle.  This holds whenever the events arrive. *)
Theorem zero_area_selection_reaches_gateway (win : main_window) (p pos : QPoint)
    (alone pressed : list (queued PyRandrWidget.event)) :
  SnippingWidget.visible (region_selector win) = false ->
  enabled_displays (manager win) !! "select_region" = Some false ->
  is_Some (push_buttons (manager win) !! "push_button_select_region") ->
  SnippingWidget.begin (region_selector win) = QPoint_null ->
  SnippingWidget.end_ (region_selector win) = QPoint_null ->
  events_of alone
  = [PyRandrWidget.Toggled "select_region" true;
     PyRandrWidget.Selector (SnippingWidget.MouseRelease pos)] ->
  events_of pressed
  = [PyRandrWidget.Toggled "select_region" true;
     PyRandrWidget.Selector (SnippingWidget.MousePress p);
     PyRandrWidget.Selector (SnippingWidget.MouseRelease pos)] ->
  (exists win',
      PyRandrWidget.run alone win = Ok win' /\
      Xrandr.calls (xrandr (manager win'))
      = Xrandr.calls (xrandr (manager win))
          ++ [["xrandr"; "--setmonitor"; "PYR-select_region"; "0/1x0/1+0+0"; "none"]] /\
      exists ref o,
        rectangles (manager win') !! "select_region" = Some ref /\
        outlines (manager win') !! ref = Some o /\
        OutlineWidget.alive o = true /\
        OutlineWidget.coordinates o = (0, 0) /\
        OutlineWidget.size o = (0, 0)) /\
  (exists win',
      PyRandrWidget.run pressed win = Ok win' /\
      Xrandr.calls (xrandr (manager win'))
      = Xrandr.calls (xrandr (manager win))
          ++ [["xrandr"; "--setmonitor"; "PYR-select_region";
               "0/1x0/1+" +:+ pretty (px p) +:+ "+" +:+ pretty (py p); "none"]] /\
      exists ref o,
        rectangles (manager win') !! "select_region" = Some ref /\
        outlines (manager win') !! ref = Some o /\
        OutlineWidget.alive o = true /\
        OutlineWidget.coordinates o = (px p, py p) /\
        OutlineWidget.size o = (0, 0)).
Proof.
  intros Hclosed Hflag Hbutton Hbegin Hend Halone Hpressed.
  assert (Hsame : forall q, top_left q q = q /\ bottom_right q q = q).
  { intros [qx qy]. unfold top_left, bottom_right. simpl.
    by rewrite !Z.min_id, !Z.max_id. }
  split.
  - rewrite (window_run_sequence alone [PyRandrWidget.Toggled "select_region" true]
               (PyRandrWidget.Selector (SnippingWidget.MouseRelease pos)));
      [|done|by repeat constructor].
    cbn [app]. rewrite window_run_one. cbn [PyRandrWidget.step].
    rewrite toggled_select_region_true, !res_bind_Ok by done.
    rewrite window_run_one. cbn [PyRandrWidget.step].
    rewrite start_capturing, selector_release_alone, Hbegin, Hend.
    destruct (Hsame QPoint_null) as [-> ->].
    destruct (complete_region_selection_spec QPoint_null QPoint_null
                (flagged "select_region" true (manager win)))
      as (os & -> & Hlength & Hnew).
    rewrite !res_bind_Ok. eexists. split; [reflexivity|].
    cbn [manager xrandr rectangles outlines]. split; [done|].
    exists (length (outlines (manager win))),
           (OutlineWidget.__init__ QPoint_null QPoint_null).
    split; [by apply lookup_insert_eq|]. by split.
  - rewrite (window_run_sequence pressed
               [PyRandrWidget.Toggled "select_region" true;
                PyRandrWidget.Selector (SnippingWidget.MousePress p)]
               (PyRandrWidget.Selector (SnippingWidget.MouseRelease pos)));
      [|done|by repeat constructor].
    cbn [app]. rewrite window_run_one. cbn [PyRandrWidget.step].
    rewrite toggled_select_region_true, !res_bind_Ok by done.
    rewrite window_run_one. cbn [PyRandrWidget.step].
    rewrite start_capturing, selector_press_alone, !res_bind_Ok.
    rewrite window_run_one. cbn [PyRandrWidget.step].
    rewrite selector_release_alone.
    destruct (Hsame p) as [-> ->].
    destruct (complete_region_selection_spec p p
                (flagged "select_region" true (manager win)))
      as (os & -> & Hlength & Hnew).
    rewrite !res_bind_Ok. eexists. split; [reflexivity|].
    cbn [manager xrandr rectangles outlines]. split.
    { simpl. unfold setmonitor_argv. by rewrite !Z.sub_diag. }
    exists (length (outlines (manager win))), (OutlineWidget.__init__ p p).
    split; [by apply lookup_insert_eq|]. split; [done|].
    unfold OutlineWidget.size, OutlineWidget.coordinates. simpl.
    by rewrite !Z.sub_diag.
Qed.

Lemma zero_area_selection_reaches_gateway_witness :
  exists win',
    PyRandrWidget.run
      [Queued (PyRandrWidget.Toggled "select_region" true) [];
       Queued (PyRandrWidget.Selector (SnippingWidget.MouseRelease (mkQPoint 7 9))) []]
      fresh_window
    = Ok win' /\
    Xrandr.calls (xrandr (manager win'))
    = [["xrandr"; "--setmonitor"; "PYR-select_region"; "0/1x0/1+0+0"; "none"]].
Proof.
  destruct (zero_area_selection_reaches_gateway fresh_window
              (mkQPoint 3 4) (mkQPoint 7 9)
              [Queued (PyRandrWidget.Toggled "select_region" true) [];
               Queued (PyRandrWidget.Selector
                         (SnippingWidget.MouseRelease (mkQPoint 7 9))) []]
              [Queued (PyRandrWidget.Toggled "select_region" true)
                 [Queued (PyRandrWidget.Selector
                            (SnippingWidget.MousePress (mkQPoint 3 4))) []];
               Queued (PyRandrWidget.Selector
                         (SnippingWidget.MouseRelease (mkQPoint 7 9))) []])
    as [(win' & Hrun & Hcalls & _) _].
  - reflexivity.
  - by vm_compute.
  - exists false. by vm_compute.
  - reflexivity.
  - reflexivity.
  - reflexivity.
  - reflexivity.
  - exists win'. split; [exact Hrun | exact Hcalls].
Defined.

End DegenerateSelection.

(** ** The toggle store and the overlays *)

Section Consistency.
Import VirtualDisplayManager.

Lemma regions_NoDup : NoDup regions.
Proof. apply (bool_decide_unpack _). by vm_compute. Qed.

(** Every region starts disabled and has its button in the form. *)
Lemma fresh_flags (area : string) (x : bool) :
  (list_to_map ((fun area => (area, false)) <$> regions) : gmap string bool)
    !! area = Some x <-> area ∈ regions /\ x = false.
Proof.
  rewrite <- elem_of_list_to_map.
  - rewrite list_elem_of_fmap. split.
    + by intros (a & [= -> ->] & Ha).
    + intros [Ha ->]. by exists area.
  - rewrite <- list_fmap_compose.
    replace (fst ∘ (fun area : string => (area, false))) with (@id string) by done.
    rewrite list_fmap_id. apply regions_NoDup.
Qed.

Lemma form_buttons_lookup (area : string) :
  area ∈ regions ->
  is_Some (PyRandrWidget.form_buttons !! ("push_button_" +:+ area)).
Proof.
  unfold regions. rewrite !elem_of_cons, elem_of_nil. intros Harea.
  repeat (destruct Harea as [->|Harea]; [exists false; by vm_compute|]).
  done.
Qed.

Lemma select_region_in_regions : "select_region" ∈ regions.
Proof. unfold regions. rewrite !elem_of_cons. tauto. Qed.

Lemma manager_inv_fresh (screen : QSize) (tool : Xrandr.tool) :
  manager_inv (fresh screen PyRandrWidget.form_buttons tool).
Proof.
  split; unfold fresh; cbn [enabled_displays rectangles outlines push_buttons].
  - intros area. split.
    + intros [x Hx]. by apply fresh_flags in Hx as [? _].
    + intros Harea. exists false. by apply fresh_flags.
  - apply form_buttons_lookup.
  - intros area ref. by rewrite lookup_empty.
  - intros area ref. by rewrite lookup_empty.
  - intros area _ Hflag. by apply fresh_flags in Hflag as [_ ?].
  - intros area ref. by rewrite lookup_empty.
  - intros ref o. by rewrite lookup_nil.
  - intros a a' ref. by rewrite lookup_empty.
Qed.

Lemma flags_follow_insert (ed : gmap string bool) (area : string) (x : bool) :
  is_Some (ed !! area) -> flags_follow ed (<[area := x]> ed) area x.
Proof.
  intros Hkey. split; [|split].
  - intros a. rewrite lookup_insert_is_Some'. split; [|tauto].
    by intros [<-|?].
  - intros a Hne. by rewrite lookup_insert_ne.
  - intros _. by rewrite lookup_insert_eq.
Qed.

Lemma flags_follow_same (ed : gmap string bool) (x : bool) :
  flags_follow ed ed "select_region" x.
Proof. by split; [|split]. Qed.

(** No reference of [rectangles] points past the end of [outlines]. *)
Lemma inv_ref_bound (self : t) (area : string) (ref : nat) :
  manager_inv self ->
  rectangles self !! area = Some ref -> (ref < length (outlines self))%nat.
Proof.
  intros Hinv Href. destruct (inv_live _ Hinv _ _ Href) as (o & Ho & _).
  by eapply lookup_lt_Some.
Qed.

(** A disabled region other than [select_region] has no rectangle. *)
Lemma inv_disabled_no_rectangle (self : t) (area : string) :
  manager_inv self ->
  area <> "select_region" ->
  enabled_displays self !! area = Some false ->
  rectangles self !! area = None.
Proof.
  intros Hinv Hne Hflag.
  destruct (rectangles self !! area) as [ref|] eqn:Href; [|done].
  apply (inv_flag _ Hinv) in Href; [congruence|done].
Qed.

(** A region without a rectangle gets a new overlay. *)
Lemma inv_new_overlay scr ed ed' rs pb pb' os tool tool'
    (area : string) (new : OutlineWidget.t) :
  manager_inv (mk scr ed rs pb os tool) ->
  area ∈ regions ->
  rs !! area = None ->
  OutlineWidget.alive new = true ->
  (forall a, a ∈ regions -> is_Some (pb' !! ("push_button_" +:+ a))) ->
  flags_follow ed ed' area true ->
  manager_inv (mk scr ed' (<[area := length os]> rs) pb' (os ++ [new]) tool').
Proof.
  intros Hinv Harea Hnone Hnew Hpb (Hkeys & Hothers & Hflag).
  split; cbn [enabled_displays rectangles outlines push_buttons].
  - intros a. rewrite Hkeys. apply (inv_keys _ Hinv).
  - done.
  - intros a r. destruct (decide (a = area)) as [->|Hne]; [done|].
    rewrite lookup_insert_ne by done. apply (inv_regions _ Hinv).
  - intros a r Hsr. destruct (decide (a = area)) as [->|Hne]; [by auto|].
    rewrite lookup_insert_ne, Hothers by done. by apply (inv_flag _ Hinv).
  - intros a Hsr. destruct (decide (a = area)) as [->|Hne].
    + intros _. by rewrite lookup_insert_eq.
    + rewrite lookup_insert_ne, Hothers by done. by apply (inv_overlay _ Hinv).
  - intros a r. destruct (decide (a = area)) as [->|Hne].
    + rewrite lookup_insert_eq. intros [= <-]. exists new.
      split; [|done]. by rewrite lookup_app_r, Nat.sub_diag.
    + rewrite lookup_insert_ne by done. intros Hr.
      destruct (inv_live _ Hinv _ _ Hr) as (o & Ho & Halive).
      exists o. split; [|done]. rewrite lookup_app_l; [done|].
      by eapply lookup_lt_Some.
  - intros r o Hr Halive.
    destruct (decide (r < length os)%nat) as [Hlt|Hge].
    + rewrite lookup_app_l in Hr by done.
      destruct (inv_owned _ Hinv _ _ Hr Halive) as (a & Ha).
      exists a. rewrite lookup_insert_ne; [done|]. intros <-.
      cbn in Ha. congruence.
    + exists area. rewrite lookup_insert_eq. f_equal.
      apply lookup_lt_Some in Hr. rewrite length_app in Hr. simpl in Hr. lia.
  - intros a a' r.
    destruct (decide (a = area)) as [->|Hne], (decide (a' = area)) as [->|Hne'];
      [done| | |].
    + rewrite lookup_insert_eq, lookup_insert_ne by done. intros [= <-] Hr.
      apply (inv_ref_bound _ _ _ Hinv) in Hr. cbn in Hr. lia.
    + rewrite lookup_insert_eq, lookup_insert_ne by done. intros Hr [= <-].
      apply (inv_ref_bound _ _ _ Hinv) in Hr. cbn in Hr. lia.
    + rewrite !lookup_insert_ne by done. apply (inv_inj _ Hinv).
Qed.

(** The overlay of a region goes, destroyed or deallocated, and a new
    one takes its place. *)
Lemma inv_replace scr ed ed' rs pb pb' os tool tool'
    (area : string) (ref : nat) (new : OutlineWidget.t) :
  manager_inv (mk scr ed rs pb os tool) ->
  rs !! area = Some ref ->
  OutlineWidget.alive new = true ->
  (forall a, a ∈ regions -> is_Some (pb' !! ("push_button_" +:+ a))) ->
  flags_follow ed ed' area true ->
  manager_inv
    (mk scr ed' (<[area := length os]> rs) pb'
        (alter OutlineWidget.destroy ref os ++ [new]) tool').
Proof.
  intros Hinv Href Hnew Hpb (Hkeys & Hothers & Hflag).
  assert (Hother : forall a r, a <> area -> rs !! a = Some r -> r <> ref).
  { intros a r Hne Hr ->. by apply Hne, (inv_inj _ Hinv a area ref). }
  split; cbn [enabled_displays rectangles outlines push_buttons].
  - intros a. rewrite Hkeys. apply (inv_keys _ Hinv).
  - done.
  - intros a r. destruct (decide (a = area)) as [->|Hne].
    + intros _. by apply (inv_regions _ Hinv area ref).
    + rewrite lookup_insert_ne by done. apply (inv_regions _ Hinv).
  - intros a r Hsr. destruct (decide (a = area)) as [->|Hne]; [by auto|].
    rewrite lookup_insert_ne, Hothers by done. by apply (inv_flag _ Hinv).
  - intros a Hsr. destruct (decide (a = area)) as [->|Hne].
    + intros _. by rewrite lookup_insert_eq.
    + rewrite lookup_insert_ne, Hothers by done. by apply (inv_overlay _ Hinv).
  - intros a r. destruct (decide (a = area)) as [->|Hne].
    + rewrite lookup_insert_eq. intros [= <-]. exists new. split; [|done].
      rewrite lookup_app_r by (by rewrite length_alter).
      by rewrite length_alter, Nat.sub_diag.
    + rewrite lookup_insert_ne by done. intros Hr.
      destruct (inv_live _ Hinv _ _ Hr) as (o & Ho & Halive).
      exists o. split; [|done].
      rewrite lookup_app_l by (rewrite length_alter; by eapply lookup_lt_Some).
      rewrite list_lookup_alter_ne; [done|].
      intros <-. by apply (Hother a ref).
  - intros r o Hr Halive.
    destruct (decide (r < length os)%nat) as [Hlt|Hge].
    + rewrite lookup_app_l in Hr by (by rewrite length_alter).
      destruct (decide (r = ref)) as [->|Hne].
      * rewrite list_lookup_alter_eq in Hr.
        destruct (os !! ref) as [old|]; [|done].
        simpl in Hr. injection Hr as <-. done.
      * rewrite list_lookup_alter_ne in Hr by done.
        destruct (inv_owned _ Hinv _ _ Hr Halive) as (a & Ha).
        exists a. rewrite lookup_insert_ne; [done|]. intros <-.
        cbn in Ha. congruence.
    + exists area. rewrite lookup_insert_eq. f_equal.
      apply lookup_lt_Some in Hr.
      rewrite length_app, length_alter in Hr. simpl in Hr. lia.
  - intros a a' r.
    destruct (decide (a = area)) as [->|Hne], (decide (a' = area)) as [->|Hne'];
      [done| | |].
    + rewrite lookup_insert_eq, lookup_insert_ne by done. intros [= <-] Hr.
      apply (inv_ref_bound _ _ _ Hinv) in Hr. cbn in Hr. lia.
    + rewrite lookup_insert_eq, lookup_insert_ne by done. intros Hr [= <-].
      apply (inv_ref_bound _ _ _ Hinv) in Hr. cbn in Hr. lia.
    + rewrite !lookup_insert_ne by done. apply (inv_inj _ Hinv).
Qed.

(** A region is disabled and its overlay destroyed: the disable path of
    [set_state]. *)
Lemma inv_disable_destroy scr ed ed' rs pb pb' os tool tool'
    (area : string) (ref : nat) :
  manager_inv (mk scr ed rs pb os tool) ->
  rs !! area = Some ref ->
  (forall a, a ∈ regions -> is_Some (pb' !! ("push_button_" +:+ a))) ->
  flags_follow ed ed' area false ->
  manager_inv
    (mk scr ed' (delete area rs) pb' (alter OutlineWidget.destroy ref os) tool').
Proof.
  intros Hinv Href Hpb (Hkeys & Hothers & Hflag).
  assert (Hother : forall a r, a <> area -> rs !! a = Some r -> r <> ref).
  { intros a r Hne Hr ->. by apply Hne, (inv_inj _ Hinv a area ref). }
  split; cbn [enabled_displays rectangles outlines push_buttons].
  - intros a. rewrite Hkeys. apply (inv_keys _ Hinv).
  - done.
  - intros a r. destruct (decide (a = area)) as [->|Hne].
    + by rewrite lookup_delete_eq.
    + rewrite lookup_delete_ne by done. apply (inv_regions _ Hinv).
  - intros a r Hsr. destruct (decide (a = area)) as [->|Hne].
    + by rewrite lookup_delete_eq.
    + rewrite lookup_delete_ne, Hothers by done. by apply (inv_flag _ Hinv).
  - intros a Hsr. destruct (decide (a = area)) as [->|Hne].
    + by rewrite Hflag.
    + rewrite lookup_delete_ne, Hothers by done. by apply (inv_overlay _ Hinv).
  - intros a r. destruct (decide (a = area)) as [->|Hne].
    + by rewrite lookup_delete_eq.
    + rewrite lookup_delete_ne by done. intros Hr.
      destruct (inv_live _ Hinv _ _ Hr) as (o & Ho & Halive).
      exists o. split; [|done].
      rewrite list_lookup_alter_ne; [done|].
      intros <-. by apply (Hother a ref).
  - intros r o Hr Halive.
    destruct (decide (r = ref)) as [->|Hne].
    + rewrite list_lookup_alter_eq in Hr.
      destruct (os !! ref) as [old|]; [|done].
      simpl in Hr. injection Hr as <-. done.
    + rewrite list_lookup_alter_ne in Hr by done.
      destruct (inv_owned _ Hinv _ _ Hr Halive) as (a & Ha).
      exists a. rewrite lookup_delete_ne; [done|]. intros <-.
      cbn in Ha. congruence.
  - intros a a' r.
    destruct (decide (a = area)) as [->|Hne]; [by rewrite lookup_delete_eq|].
    destruct (decide (a' = area)) as [->|Hne']; [by rewrite lookup_delete_eq|].
    rewrite !lookup_delete_ne by done. apply (inv_inj _ Hinv).
Qed.

(** Only the flag of [select_region] and the buttons change. *)
Lemma inv_flag_only (x : bool) scr ed rs pb pb' os tool tool' :
  manager_inv (mk scr ed rs pb os tool) ->
  (forall a, a ∈ regions -> is_Some (pb' !! ("push_button_" +:+ a))) ->
  manager_inv (mk scr (<["select_region" := x]> ed) rs pb' os tool').
Proof.
  intros Hinv Hpb.
  split; cbn [enabled_displays rectangles outlines push_buttons].
  - intros a. rewrite lookup_insert_is_Some'. split.
    + intros [<-|Ha]; [apply select_region_in_regions|].
      by apply (inv_keys _ Hinv).
    + intros Ha. right. by apply (inv_keys _ Hinv).
  - done.
  - apply (inv_regions _ Hinv).
  - intros a r Hsr. rewrite lookup_insert_ne by done. by apply (inv_flag _ Hinv).
  - intros a Hsr. rewrite lookup_insert_ne by done. by apply (inv_overlay _ Hinv).
  - apply (inv_live _ Hinv).
  - apply (inv_owned _ Hinv).
  - apply (inv_inj _ Hinv).
Qed.

(** The gateway leaves the invariant alone. *)
Lemma inv_set_xrandr (tool' : Xrandr.tool) (self : t) :
  manager_inv self -> manager_inv (set_xrandr tool' self).
Proof. intros [? ? ? ? ? ? ? ?]. by split. Qed.

Lemma inv_buttons_insert (self : t) (name : string) (x : bool) :
  manager_inv self ->
  forall a, a ∈ regions ->
    is_Some (<[name := x]> (push_buttons self) !! ("push_button_" +:+ a)).
Proof.
  intros Hinv a Ha. rewrite lookup_insert_is_Some'. right.
  by apply (inv_buttons _ Hinv).
Qed.

(** The flag stored for a region is a boolean. *)
Lemma inv_stored (self : t) (area : string) :
  manager_inv self -> area ∈ regions ->
  exists stored, enabled_displays self !! area = Some stored.
Proof. intros Hinv Harea. by apply (inv_keys _ Hinv). Qed.

(** *** Binding a rectangle *)

(** Rebinding a region whose widget no other region shares deallocates
    that widget. *)
Lemma setitem_rectangles_replace scr ed rs pb os tool (new : OutlineWidget.t)
    (area : string) (ref : nat) :
  rs !! area = Some ref ->
  (ref < length os)%nat ->
  (forall a, a <> area -> rs !! a <> Some ref) ->
  setitem_rectangles area (length os) (mk scr ed rs pb (os ++ [new]) tool)
  = mk scr ed (<[area := length os]> rs) pb
       (alter OutlineWidget.destroy ref os ++ [new]) tool.
Proof.
  intros Href Hbound Hother. unfold setitem_rectangles.
  cbn [rectangles set_rectangles set_outlines outlines screen enabled_displays
       push_buttons xrandr].
  rewrite Href, bool_decide_eq_true_2.
  - change OutlineWidget.dealloc with OutlineWidget.destroy.
    unfold set_outlines, set_rectangles.
    cbn [screen enabled_displays rectangles push_buttons outlines xrandr].
    by rewrite alter_app_l.
  - apply map_Forall_lookup_2. intros a r.
    destruct (decide (a = area)) as [->|Hne].
    + rewrite lookup_insert_eq. intros [= <-]. lia.
    + rewrite lookup_insert_ne by done. intros Hr ->. by apply (Hother a).
Qed.

Lemma inv_unshared (self : t) (area : string) (ref : nat) :
  manager_inv self ->
  rectangles self !! area = Some ref ->
  forall a, a <> area -> rectangles self !! a <> Some ref.
Proof.
  intros Hinv Href a Hne Hr. by apply Hne, (inv_inj _ Hinv a area ref).
Qed.

Lemma alter_destroy_twice (ref : nat) (os : list OutlineWidget.t) :
  alter OutlineWidget.destroy ref (alter OutlineWidget.destroy ref os)
  = alter OutlineWidget.destroy ref os.
Proof.
  apply list_eq. intros i. destruct (decide (i = ref)) as [->|Hne].
  - rewrite !list_lookup_alter_eq. by destruct (os !! ref).
  - by rewrite !list_lookup_alter_ne.
Qed.

(** *** The handlers of the manager *)

Lemma draw_outline_fresh (area : string) (w h x y : Z) (self : t) :
  rectangles self !! area = None ->
  draw_outline area w h x y self
  = Ok (set_rectangles (<[area := length (outlines self)]> (rectangles self))
          (set_outlines
             (outlines self ++ [OutlineWidget.__init__ (mkQPoint x y) (mkQPoint (x + w) (y + h))])
             self)).
Proof.
  intros Hnone. unfold draw_outline. rewrite Hnone. cbn.
  by rewrite setitem_rectangles_fresh.
Qed.

Lemma draw_outline_replace (area : string) (w h x y : Z) scr ed rs pb os tool
    (ref : nat) :
  manager_inv (mk scr ed rs pb os tool) ->
  rs !! area = Some ref ->
  draw_outline area w h x y (mk scr ed rs pb os tool)
  = Ok (mk scr ed (<[area := length os]> rs) pb
           (alter OutlineWidget.destroy ref os
              ++ [OutlineWidget.__init__ (mkQPoint x y) (mkQPoint (x + w) (y + h))])
           tool).
Proof.
  intros Hinv Href. unfold draw_outline, destroy_rectangle, new_OutlineWidget.
  cbn [rectangles outlines set_outlines screen enabled_displays push_buttons
       xrandr].
  rewrite Href. cbn [bool_decide decide_rel res_bind].
  rewrite bool_decide_eq_true_2 by done. cbn [res_bind].
  unfold set_outlines.
  cbn [rectangles outlines screen enabled_displays push_buttons xrandr].
  rewrite (setitem_rectangles_replace _ _ _ _ _ _ _ area ref).
  - by rewrite alter_destroy_twice, length_alter.
  - done.
  - rewrite length_alter. by apply (inv_ref_bound _ _ _ Hinv Href).
  - by apply (inv_unshared _ _ _ Hinv Href).
Qed.

End Consistency.

Section Handlers.
Import VirtualDisplayManager.

(** A grid handler, at a cell that exists for its number of parts. *)
Lemma select_cell_inv (area : string) (parts : Z) (r c : nat) (x : bool)
    (self : t) :
  manager_inv self ->
  area ∈ regions ->
  area <> "select_region" ->
  parts <> 0 ->
  (r < Z.to_nat (grid_rows parts))%nat ->
  (c < Z.to_nat (parts `div` grid_rows parts))%nat ->
  exists self',
    select_cell area parts r c x self = Ok self' /\
    manager_inv self' /\ same_select_region self self'.
Proof.
  intros Hinv Harea Hsr Hparts Hr Hc.
  destruct (inv_stored _ _ Hinv Harea) as [stored Hflag].
  destruct (decide (x = stored)) as [->|Hne].
  { exists self. split; [by apply select_cell_guard | done]. }
  pose proof (inv_buttons _ Hinv _ Harea) as Hbutton.
  unfold select_cell. destruct x, stored; try done.
  - (* enabled *)
    rewrite set_state_enable, res_bind_Ok by done. cbn [negb].
    rewrite divide_screen_grid, res_bind_Ok by done.
    rewrite (proj2 (grid_at_grid_of _ _ _ _ r c _) (conj Hr (conj Hc eq_refl))).
    rewrite res_bind_Ok, call_set_monitor_eq, res_bind_Ok.
    pose proof (inv_disabled_no_rectangle _ _ Hinv Hsr Hflag) as Hnone.
    rewrite draw_outline_fresh by done.
    eexists. split; [done|].
    destruct self as [scr ed rs pb os tool]. split.
    + apply (inv_new_overlay scr ed _ rs pb _ os tool); try done.
      * by apply (inv_buttons_insert _ _ _ Hinv).
      * apply flags_follow_insert. by eexists.
    + split; cbn; by rewrite lookup_insert_ne.
  - (* disabled *)
    destruct (inv_overlay _ Hinv _ Hsr Hflag) as [ref Href].
    rewrite set_state_disable, res_bind_Ok by done. cbn [negb].
    rewrite Href, call_del_monitor_eq.
    eexists. split; [done|].
    destruct self as [scr ed rs pb os tool]. split.
    + apply (inv_disable_destroy scr ed _ rs pb _ os tool); try done.
      * by apply (inv_buttons_insert _ _ _ Hinv).
      * apply flags_follow_insert. by eexists.
    + split; cbn; [by rewrite lookup_insert_ne | by rewrite lookup_delete_ne].
Qed.

Lemma select_full_screen_inv (x : bool) (self : t) :
  manager_inv self ->
  exists self',
    select_full_screen x self = Ok self' /\
    manager_inv self' /\ same_select_region self self'.
Proof.
  intros Hinv.
  assert (Harea : "full_screen" ∈ regions).
  { unfold regions. rewrite !elem_of_cons. tauto. }
  assert (Hsr : "full_screen"%string <> "select_region"%string) by done.
  destruct (inv_stored _ _ Hinv Harea) as [stored Hflag].
  destruct (decide (x = stored)) as [->|Hne].
  { exists self. split; [by apply select_full_screen_guard | done]. }
  pose proof (inv_buttons _ Hinv _ Harea) as Hbutton.
  unfold select_full_screen. destruct x, stored; try done.
  - rewrite set_state_enable, res_bind_Ok by done. cbn [negb].
    unfold screen_dimensions.
    rewrite call_set_monitor_eq, res_bind_Ok. unfold new_OutlineWidget.
    pose proof (inv_disabled_no_rectangle _ _ Hinv Hsr Hflag) as Hnone.
    rewrite setitem_rectangles_fresh by done.
    eexists. split; [done|].
    destruct self as [scr ed rs pb os tool]. split.
    + apply (inv_new_overlay scr ed _ rs pb _ os tool); try done.
      * by apply (inv_buttons_insert _ _ _ Hinv).
      * apply flags_follow_insert. by eexists.
    + split; cbn; by rewrite lookup_insert_ne.
  - destruct (inv_overlay _ Hinv _ Hsr Hflag) as [ref Href].
    rewrite set_state_disable, res_bind_Ok by done. cbn [negb].
    rewrite Href, call_del_monitor_eq.
    eexists. split; [done|].
    destruct self as [scr ed rs pb os tool]. split.
    + apply (inv_disable_destroy scr ed _ rs pb _ os tool); try done.
      * by apply (inv_buttons_insert _ _ _ Hinv).
      * apply flags_follow_insert. by eexists.
    + split; cbn; [by rewrite lookup_insert_ne | by rewrite lookup_delete_ne].
Qed.

(** The completion callback: [select_region] has a rectangle
    afterwards, and the flags are as they were. *)
Lemma complete_region_selection_inv (p q : QPoint) (self : t) :
  manager_inv self ->
  exists self',
    complete_region_selection p q self = Ok self' /\
    manager_inv self' /\
    is_Some (rectangles self' !! "select_region") /\
    enabled_displays self' = enabled_displays self.
Proof.
  intros Hinv. destruct self as [scr ed rs pb os tool].
  unfold complete_region_selection, new_OutlineWidget.
  unfold set_outlines.
  cbn [rectangles outlines screen enabled_displays push_buttons xrandr].
  destruct (rs !! "select_region") as [ref|] eqn:Href.
  - rewrite (setitem_rectangles_replace _ _ _ _ _ _ _ _ ref);
      [|done|by apply (inv_ref_bound _ _ _ Hinv Href)
       |by apply (inv_unshared _ _ _ Hinv Href)].
    rewrite call_set_monitor_eq. eexists. split; [done|].
    split; [|split; [|done]].
    + apply (inv_replace scr ed ed rs pb pb os tool);
        first [done | apply (inv_buttons _ Hinv) | apply flags_follow_same].
    + cbn. by rewrite lookup_insert_eq.
  - rewrite setitem_rectangles_fresh by done.
    rewrite call_set_monitor_eq. eexists. split; [done|].
    split; [|split; [|done]].
    + apply (inv_new_overlay scr ed ed rs pb pb os tool);
        first [done | apply select_region_in_regions
              | apply (inv_buttons _ Hinv) | apply flags_follow_same].
    + cbn. by rewrite lookup_insert_eq.
Qed.

(** The cancellation callback: [select_region] is disabled
    afterwards. *)
Lemma cancel_region_selection_inv (self : t) :
  manager_inv self ->
  exists self',
    cancel_region_selection self = Ok self' /\
    manager_inv self' /\
    enabled_displays self' !! "select_region" = Some false.
Proof.
  intros Hinv. unfold cancel_region_selection.
  destruct (inv_stored _ _ Hinv select_region_in_regions) as [[|] Hflag].
  - pose proof (inv_buttons _ Hinv _ select_region_in_regions) as Hbutton.
    rewrite set_state_disable, res_bind_Ok by done.
    destruct self as [scr ed rs pb os tool].
    cbn [rectangles] in *. destruct (rs !! "select_region") as [ref|] eqn:Href.
    + eexists. split; [done|]. split; [|by apply lookup_insert_eq].
      apply (inv_disable_destroy scr ed _ rs pb _ os tool); try done.
      * by apply (inv_buttons_insert _ _ _ Hinv).
      * apply flags_follow_insert. by eexists.
    + eexists. split; [done|]. split; [|by apply lookup_insert_eq].
      apply (inv_flag_only false scr ed rs pb _ os tool); [done|].
      by apply (inv_buttons_insert _ _ _ Hinv).
  - rewrite set_state_guard, res_bind_Ok by done. by exists self.
Qed.

(** The slots of [connect_ui]: [select_region], [select_full_screen],
    and grid handlers whose cell exists. *)
Lemma slot_of_cases (area : string) :
  PyRandrWidget.slot_of area PyRandrWidget.connect_ui = None \/
  PyRandrWidget.slot_of area PyRandrWidget.connect_ui = Some select_region \/
  PyRandrWidget.slot_of area PyRandrWidget.connect_ui
    = Some (PyRandrWidget.on_manager select_full_screen) \/
  exists (parts : Z) (r c : nat),
    area ∈ regions /\ area <> "select_region" /\
    PyRandrWidget.slot_of area PyRandrWidget.connect_ui
      = Some (PyRandrWidget.on_manager (select_cell area parts r c)) /\
    parts <> 0 /\
    (r < Z.to_nat (grid_rows parts))%nat /\
    (c < Z.to_nat (parts `div` grid_rows parts))%nat.
Proof.
  unfold PyRandrWidget.connect_ui. cbn [PyRandrWidget.slot_of].
  destruct (decide ("select_region"%string = area)) as [<-|_]; [tauto|].
  destruct (decide ("full_screen"%string = area)) as [<-|_]; [tauto|].
  repeat (destruct (decide (_ = area)) as [<-|_];
          [ right; right; right; eexists _, _, _;
            split; [apply (bool_decide_unpack _); vm_compute; exact I|];
            split; [discriminate|];
            split; [reflexivity|];
            split; [discriminate|]; split; vm_compute; lia |]).
  by left.
Qed.

(** *** The main window *)

(** The invariant looks at three attributes of the capture surface. *)
Lemma window_inv_selector (m : t) (w w' : SnippingWidget.t t) :
  SnippingWidget.visible w' = SnippingWidget.visible w ->
  SnippingWidget.onSnippingCompleted w' = SnippingWidget.onSnippingCompleted w ->
  SnippingWidget.onSnippingCancelled w' = SnippingWidget.onSnippingCancelled w ->
  window_inv (mk_main_window m w) -> window_inv (mk_main_window m w').
Proof.
  unfold window_inv, callbacks_known, capture_pending.
  cbn [manager region_selector]. by intros -> -> ->.
Qed.

Lemma select_region_inv (x : bool) (win : main_window) :
  window_inv win ->
  exists win', select_region x win = Ok win' /\ window_inv win'.
Proof.
  intros (Hinv & Hknown & Hpending). destruct win as [m sel].
  cbn [manager region_selector] in *.
  destruct (inv_stored _ _ Hinv select_region_in_regions) as [stored Hflag].
  destruct (decide (x = stored)) as [->|Hne].
  { exists (mk_main_window m sel). split; [by apply select_region_guard|done]. }
  pose proof (inv_buttons _ Hinv _ select_region_in_regions) as Hbutton.
  unfold select_region. cbn [manager region_selector].
  destruct x, stored; try done.
  - rewrite set_state_enable, res_bind_Ok by done. cbn [negb].
    eexists. split; [done|].
    split; [|split]; cbn [manager region_selector].
    + destruct m as [scr ed rs pb os tool].
      apply (inv_flag_only true scr ed rs pb _ os tool); [done|].
      by apply (inv_buttons_insert _ _ _ Hinv).
    + split; by right.
    + intros _. by right.
  - rewrite set_state_disable, res_bind_Ok by done. cbn [negb].
    destruct m as [scr ed rs pb os tool]. cbn [rectangles] in *.
    destruct (rs !! "select_region") as [ref|] eqn:Href.
    + rewrite call_del_monitor_eq, res_bind_Ok. eexists. split; [done|].
      split; [|split]; cbn [manager region_selector].
      * apply (inv_disable_destroy scr ed _ rs pb _ os tool); try done.
        -- by apply (inv_buttons_insert _ _ _ Hinv).
        -- apply flags_follow_insert. by eexists.
      * done.
      * cbn. by rewrite lookup_insert_eq.
    + rewrite call_del_monitor_eq, res_bind_Ok. eexists. split; [done|].
      split; [|split]; cbn [manager region_selector].
      * apply (inv_flag_only false scr ed rs pb _ os tool); [done|].
        by apply (inv_buttons_insert _ _ _ Hinv).
      * done.
      * cbn. by rewrite lookup_insert_eq.
Qed.

Lemma on_manager_inv (f : bool -> t -> res t) (x : bool) (win : main_window) :
  window_inv win ->
  (exists m', f x (manager win) = Ok m' /\
              manager_inv m' /\ same_select_region (manager win) m') ->
  exists win', PyRandrWidget.on_manager f x win = Ok win' /\ window_inv win'.
Proof.
  intros (_ & Hknown & Hpending) (m' & Hf & Hinv & Hflag & Hrect).
  unfold PyRandrWidget.on_manager.
  rewrite Hf, res_bind_Ok. eexists. split; [done|].
  split; [done|]. split; [done|]. cbn [manager region_selector].
  by rewrite Hflag, Hrect.
Qed.

(** A toggle event, whether a capture is shown or not. *)
Lemma toggled_inv (area : string) (x : bool) (win : main_window) :
  window_inv win ->
  exists win', PyRandrWidget.toggled area x win = Ok win' /\ window_inv win'.
Proof.
  intros Hwin. unfold PyRandrWidget.toggled.
  destruct (slot_of_cases area)
    as [->|[->|[->|(parts & r & c & Harea & Hsr & -> & Hparts & Hr & Hc)]]].
  - by exists win.
  - by apply select_region_inv.
  - apply on_manager_inv; [done|]. apply select_full_screen_inv, Hwin.
  - apply on_manager_inv; [done|]. by apply select_cell_inv; [apply Hwin|..].
Qed.

End Handlers.

Section Events.
Import VirtualDisplayManager.

(** An event of the capture surface, given that the dispatch of the
    events waiting in the queue keeps the invariant. *)
Lemma selector_event_inv (ev : SnippingWidget.event)
    (queue : main_window -> res main_window) (win : main_window) :
  (forall win0, window_inv win0 ->
     exists win1, queue win0 = Ok win1 /\ window_inv win1) ->
  window_inv win ->
  exists win', PyRandrWidget.selector_event ev queue win = Ok win' /\ window_inv win'.
Proof.
  intros Hqueue Hwin. destruct win as [m w].
  unfold PyRandrWidget.selector_event. cbn [manager region_selector].
  set (pending := fun w m =>
         let? self := queue (mk_main_window m w) in
         Ok (region_selector self, manager self)).
  assert (Hpending : forall w0 m0,
             window_inv (mk_main_window m0 w0) ->
             exists w1 m1, pending w0 m0 = Ok (w1, m1) /\
                           window_inv (mk_main_window m1 w1)).
  { intros w0 m0 H0. destruct (Hqueue _ H0) as ([m1 w1] & Hrun & H1).
    exists w1, m1. unfold pending. by rewrite Hrun. }
  clearbody pending. clear Hqueue.
  assert (Hgoes_on : forall w0,
             SnippingWidget.visible w0 = SnippingWidget.visible w ->
             SnippingWidget.onSnippingCompleted w0
             = SnippingWidget.onSnippingCompleted w ->
             SnippingWidget.onSnippingCancelled w0
             = SnippingWidget.onSnippingCancelled w ->
             exists win',
               (let? '(w1, m1) := pending w0 m in Ok (mk_main_window m1 w1))
               = Ok win' /\ window_inv win').
  { intros w0 Hv Hc Hx.
    destruct (Hpending w0 m) as (w1 & m1 & -> & H1).
    - by apply (window_inv_selector m w).
    - by eexists. }
  unfold SnippingWidget.deliver.
  destruct (SnippingWidget.visible w) eqn:Hvisible; [|by apply Hgoes_on].
  destruct ev as [pos|pos|pos|[|code]|];
    cbn [SnippingWidget.handle SnippingWidget.keyPressEvent res_bind].
  - by apply Hgoes_on.
  - by apply Hgoes_on.
  - (* release *)
    unfold SnippingWidget.mouseReleaseEvent.
    edestruct (Hpending) as (w1 & m1 & -> & Hinv & Hknown & Hsel).
    { apply (window_inv_selector m w); [| | |exact Hwin];
        destruct w as [[] ? ? ? ? [] ? ? ? ?]; done. }
    rewrite res_bind_Ok. cbn [manager region_selector] in *.
    destruct Hknown as [[Hc|Hc] Hx]; rewrite Hc.
    + rewrite !res_bind_Ok. eexists. split; [done|].
      split; [done|]. split.
      * split; [by left|]. by destruct w1.
      * cbn [manager region_selector]. intros Hflag.
        destruct (Hsel Hflag) as [?|(_ & Hc' & _)]; [by left|congruence].
    + destruct (complete_region_selection_inv
                  (mkQPoint
                     (Z.min (px (SnippingWidget.begin
                                   (SnippingWidget.restoreOverrideCursor
                                      (SnippingWidget.set_is_snipping false w))))
                            (px (SnippingWidget.end_
                                   (SnippingWidget.restoreOverrideCursor
                                      (SnippingWidget.set_is_snipping false w)))))
                     (Z.min (py (SnippingWidget.begin
                                   (SnippingWidget.restoreOverrideCursor
                                      (SnippingWidget.set_is_snipping false w))))
                            (py (SnippingWidget.end_
                                   (SnippingWidget.restoreOverrideCursor
                                      (SnippingWidget.set_is_snipping false w))))))
                  (mkQPoint
                     (Z.max (px (SnippingWidget.begin
                                   (SnippingWidget.restoreOverrideCursor
                                      (SnippingWidget.set_is_snipping false w))))
                            (px (SnippingWidget.end_
                                   (SnippingWidget.restoreOverrideCursor
                                      (SnippingWidget.set_is_snipping false w)))))
                     (Z.max (py (SnippingWidget.begin
                                   (SnippingWidget.restoreOverrideCursor
                                      (SnippingWidget.set_is_snipping false w))))
                            (py (SnippingWidget.end_
                                   (SnippingWidget.restoreOverrideCursor
                                      (SnippingWidget.set_is_snipping false w))))))
                  m1 Hinv) as (m2 & -> & Hinv2 & Hrect & _).
      rewrite !res_bind_Ok. eexists. split; [done|].
      split; [done|]. split.
      * split; [by left|]. by destruct w1.
      * cbn [manager region_selector]. intros _. by left.
  - (* Escape *)
    edestruct (Hpending) as (w1 & m1 & -> & Hinv & Hknown & Hsel).
    { apply (window_inv_selector m w); [| | |exact Hwin];
        destruct w as [[] ? ? ? ? [] ? ? ? ?]; done. }
    rewrite res_bind_Ok. cbn [manager region_selector] in *.
    replace (SnippingWidget.onSnippingCancelled
               (SnippingWidget.set_onSnippingCompleted None w1))
      with (SnippingWidget.onSnippingCancelled w1) by by destruct w1.
    destruct Hknown as [Hc [Hx|Hx]]; rewrite Hx.
    + rewrite !res_bind_Ok. eexists. split; [done|].
      split; [done|]. split; [by split; left|].
      cbn [manager region_selector]. intros Hflag.
      destruct (Hsel Hflag) as [?|(_ & _ & Hx')]; [by left|congruence].
    + destruct (cancel_region_selection_inv m1 Hinv) as (m2 & -> & Hinv2 & Hflag).
      rewrite !res_bind_Ok. eexists. split; [done|].
      split; [done|]. split; [by split; left|].
      cbn [manager region_selector]. by rewrite Hflag.
  - by apply Hgoes_on.
  - apply Hgoes_on; by destruct w as [[] ? ? ? ? ? ? ? ? ?].
Qed.

Lemma step_inv (ev : PyRandrWidget.event)
    (queue : main_window -> res main_window) (win : main_window) :
  (forall win0, window_inv win0 ->
     exists win1, queue win0 = Ok win1 /\ window_inv win1) ->
  window_inv win ->
  exists win', PyRandrWidget.step ev queue win = Ok win' /\ window_inv win'.
Proof.
  intros Hqueue Hwin. destruct ev as [area x|ev]; cbn [PyRandrWidget.step].
  - destruct (toggled_inv area x win Hwin) as (win1 & -> & Hwin1).
    rewrite res_bind_Ok. by apply Hqueue.
  - by apply selector_event_inv.
Qed.

(** Whatever the events and whenever they arrive, the program goes on
    and the invariant holds. *)
Lemma run_inv (queue : list (queued PyRandrWidget.event)) (win : main_window) :
  window_inv win ->
  exists win', PyRandrWidget.run queue win = Ok win' /\ window_inv win'.
Proof.
  apply (event_loop_invariant PyRandrWidget.step window_inv).
  intros ev pending win0. apply step_inv.
Qed.

(** *** Start-up *)

Lemma startswith_slice (name : string) :
  startswith "PYR-" name = true -> name = "PYR-" +:+ slice_from 4 name.
Proof.
  destruct name as [|a [|b [|c [|d rest]]]]; simpl; try done;
    repeat (case_bool_decide; simpl; try done).
  intros _. by subst.
Qed.

Lemma replace_prefix (area : string) :
  area ∈ regions -> py_replace "PYR-" "" ("PYR-" +:+ area) = area.
Proof.
  unfold regions. rewrite !elem_of_cons, elem_of_nil. intros Harea.
  repeat (destruct Harea as [->|Harea]; [by vm_compute|]).
  done.
Qed.

Lemma for_each_inv {A B} (P : B -> Prop) (f : B -> A -> res B) (l : list A)
    (acc acc' : B) :
  (forall b a b', P b -> f b a = Ok b' -> P b') ->
  P acc -> for_each f l acc = Ok acc' -> P acc'.
Proof.
  intros Hstep. revert acc. induction l as [|a l IH]; intros acc Hacc.
  - by intros [= <-].
  - cbn [for_each]. destruct (f acc a) as [b|err] eqn:Hf; [|done].
    rewrite res_bind_Ok. apply IH. by eapply Hstep.
Qed.

Lemma init_active_monitor_inv (self self' : t)
    (monitor : string * string * string * string) :
  startup_inv self ->
  init_active_monitor self monitor = Ok self' ->
  startup_inv self'.
Proof.
  intros [Hinv Hsel]. destruct monitor as [[[index name] dimensions] device].
  unfold init_active_monitor.
  destruct (startswith "PYR-" name) eqn:Hprefix; [|by intros [= <-]].
  case_bool_decide as Hkey; [|by intros [= <-]]. cbn [andb].
  apply (inv_keys _ Hinv) in Hkey.
  rewrite (startswith_slice name Hprefix), (replace_prefix _ Hkey).
  set (area := slice_from 4 name) in *. clearbody area.
  destruct (geometry_findall_0 dimensions) as [[[[ws hs] xs] ys]|err]; [|done].
  rewrite res_bind_Ok.
  destruct (py_int ws) as [w|]; [|done]. rewrite res_bind_Ok.
  destruct (py_int hs) as [h|]; [|done]. rewrite res_bind_Ok.
  destruct (py_int xs) as [x|]; [|done]. rewrite res_bind_Ok.
  destruct (py_int ys) as [y|]; [|done]. rewrite res_bind_Ok.
  pose proof (inv_buttons _ Hinv _ Hkey) as Hbutton.
  destruct (inv_stored _ _ Hinv Hkey) as [stored Hflag].
  destruct self as [scr ed rs pb os tool].
  cbn [rectangles enabled_displays push_buttons] in *.
  assert (Hsame : stored = true -> flags_follow ed ed area true).
  { intros ->. by split; [|split]. }
  assert (Hinsert : flags_follow ed (<[area := true]> ed) area true).
  { apply flags_follow_insert. by eexists. }
  destruct (rs !! area) as [ref|] eqn:Href.
  - rewrite (draw_outline_replace _ _ _ _ _ _ _ _ _ _ _ ref), res_bind_Ok by done.
    destruct stored.
    + rewrite set_state_guard, res_bind_Ok by done. intros [= <-]. split.
      * apply (inv_replace scr ed ed rs pb pb os tool);
          first [done | apply (inv_buttons _ Hinv) | by apply Hsame].
      * cbn. intros Hsr. destruct (decide (area = "select_region")) as [->|Hne].
        -- by rewrite lookup_insert_eq.
        -- rewrite lookup_insert_ne by done. by apply Hsel.
    + rewrite set_state_enable, res_bind_Ok by done. intros [= <-]. split.
      * apply (inv_replace scr ed _ rs pb _ os tool);
          first [done | by apply (inv_buttons_insert _ _ _ Hinv)].
      * cbn. intros Hsr. destruct (decide (area = "select_region")) as [->|Hne].
        -- by rewrite lookup_insert_eq.
        -- rewrite lookup_insert_ne in Hsr by done.
           rewrite lookup_insert_ne by done. by apply Hsel.
  - destruct stored.
    { destruct (decide (area = "select_region")) as [->|Hne].
      - destruct (Hsel Hflag) as [ref Hsome]. congruence.
      - destruct (inv_overlay _ Hinv _ Hne Hflag) as [ref Hsome].
        cbn in Hsome. congruence. }
    rewrite draw_outline_fresh, res_bind_Ok by done.
    rewrite set_state_enable, res_bind_Ok by done.
    intros [= <-]. split.
    + apply (inv_new_overlay scr ed _ rs pb _ os tool);
        first [done | by apply (inv_buttons_insert _ _ _ Hinv)].
    + cbn. intros Hsr. destruct (decide (area = "select_region")) as [->|Hne].
      * by rewrite lookup_insert_eq.
      * rewrite lookup_insert_ne in Hsr by done.
           rewrite lookup_insert_ne by done. by apply Hsel.
Qed.

Lemma init_inv (screen : QSize) (tool : Xrandr.tool) (win : main_window) :
  PyRandrWidget.__init__ screen tool = Ok win -> window_inv win.
Proof.
  unfold PyRandrWidget.__init__, __init__, init_active_monitors.
  destruct (for_each _ _ _) as [m|err] eqn:Hloop; [|done].
  rewrite res_bind_Ok. intros [= <-].
  assert (startup_inv m) as [Hinv Hsel].
  { eapply (for_each_inv startup_inv); [| |exact Hloop].
    - intros b a b'. apply init_active_monitor_inv.
    - split; [apply manager_inv_fresh|].
      intros Hflag. by apply fresh_flags in Hflag as [_ ?]. }
  split; [done|]. split; [by split; left|].
  cbn [manager region_selector]. intros Hflag. left. by apply Hsel.
Qed.

(** *** What the invariant says about flags and overlays *)

Lemma inv_live_overlay (self : t) (area : string) :
  manager_inv self ->
  live_overlay self area <-> is_Some (rectangles self !! area).
Proof.
  intros Hinv. split.
  - intros (ref & o & Href & _). by exists ref.
  - intros [ref Href]. destruct (inv_live _ Hinv _ _ Href) as (o & Ho & Halive).
    by exists ref, o.
Qed.

Lemma fresh_window_init :
  PyRandrWidget.__init__ (mkQSize 1920 1080) obliging_tool = Ok fresh_window.
Proof. reflexivity. Qed.

(** Enabling [select_region] on the window just built leaves its flag
    true and no overlay for it: store and overlays disagree after a
    completed toggle event. *)
Lemma select_region_enabled_without_overlay :
  exists win',
    PyRandrWidget.__init__ (mkQSize 1920 1080) obliging_tool = Ok fresh_window /\
    PyRandrWidget.run [Queued (PyRandrWidget.Toggled "select_region" true) []]
                      fresh_window
    = Ok win' /\
    enabled_displays (manager win') !! "select_region" = Some true /\
    ~ live_overlay (manager win') "select_region" /\
    ~ store_matches_overlays (manager win').
Proof.
  exists (mk_main_window
            (flagged "select_region" true (manager fresh_window))
            (SnippingWidget.start (Some complete_region_selection)
                                  (Some cancel_region_selection)
                                  SnippingWidget.__init__)).
  split; [exact fresh_window_init|]. split.
  { rewrite window_run_cons. cbn [PyRandrWidget.step].
    rewrite toggled_select_region_true; [done|by vm_compute|].
    exists false. by vm_compute. }
  cbn [manager].
  assert (Hnone : ~ live_overlay
                    (flagged "select_region" true (manager fresh_window))
                    "select_region").
  { intros (ref & o & Href & _). revert Href. by vm_compute. }
  split; [by vm_compute|]. split; [exact Hnone|].
  intros Hmatch. apply Hnone, Hmatch.
  - apply select_region_in_regions.
  - by vm_compute.
Qed.

(** The push buttons stay connected while the capture surface is shown.
    When [select_region] is toggled off during the capture and the drag
    is completed afterwards, the overlay is built all the same: the
    region then has a live overlay and a false flag. *)
Lemma select_region_disabled_with_overlay :
  exists win',
    PyRandrWidget.run
      (one_by_one
         [PyRandrWidget.Toggled "select_region" true;
          PyRandrWidget.Toggled "select_region" false;
          PyRandrWidget.Selector (SnippingWidget.MousePress (mkQPoint 100 100));
          PyRandrWidget.Selector (SnippingWidget.MouseMove (mkQPoint 400 300));
          PyRandrWidget.Selector (SnippingWidget.MouseRelease (mkQPoint 400 300))])
      fresh_window
    = Ok win' /\
    enabled_displays (manager win') !! "select_region" = Some false /\
    live_overlay (manager win') "select_region".
Proof.
  rewrite window_run_one. cbn [PyRandrWidget.step].
  rewrite toggled_select_region_true, !res_bind_Ok;
    [|by vm_compute|exists false; by vm_compute].
  rewrite window_run_one. cbn [PyRandrWidget.step].
  change (PyRandrWidget.toggled "select_region" false ?win)
    with (select_region false win).
  unfold select_region at 1. cbn [manager region_selector].
  rewrite set_state_disable, !res_bind_Ok;
    [|by apply lookup_insert_eq
     |exists true; by apply lookup_insert_eq].
  cbn [negb].
  replace (rectangles (flagged "select_region" true (manager fresh_window))
             !! "select_region") with (@None nat) by by vm_compute.
  rewrite call_del_monitor_eq, !res_bind_Ok.
  rewrite window_run_one. cbn [PyRandrWidget.step].
  rewrite start_capturing, selector_press_alone, !res_bind_Ok.
  rewrite window_run_one. cbn [PyRandrWidget.step].
  change (PyRandrWidget.selector_event (SnippingWidget.MouseMove ?pos) Ok
            (mk_main_window ?m (capturing ?c ?x ?b ?e ?w0)))
    with (@Ok main_window (mk_main_window m (capturing c x b pos w0))).
  rewrite !res_bind_Ok, window_run_one. cbn [PyRandrWidget.step].
  rewrite selector_release_alone.
  match goal with
  | |- context [complete_region_selection ?p ?q ?m] =>
      destruct (complete_region_selection_spec p q m) as (os & -> & Hlength & Hnew)
  end.
  rewrite !res_bind_Ok. eexists. split; [reflexivity|].
  cbn [manager enabled_displays rectangles outlines set_xrandr flagged
       set_push_buttons set_enabled_displays].
  split; [by apply lookup_insert_eq|].
  eexists _, _. split; [by apply lookup_insert_eq|]. split; [exact Hnew|done].
Qed.

(** C2, as the code has it.  After the manager is built and after every
    event that follows, whatever the events and whenever they arrive (a
    toggle event also while the capture surface is shown, any event
    also from inside the handler of a release or of Escape):
    - for every region other than [select_region], the flag is true if
      and only if the region has a live overlay;
    - the flag of [select_region] is true without a live overlay only
      while the capture surface is shown and will call the manager back;
    - every live overlay is the one of exactly one region, and a region
      refers to one overlay at most: at most one live overlay per region
      exists. *)
Theorem store_follows_overlays (screen : QSize) (tool : Xrandr.tool)
    (win0 : main_window) (queue : list (queued PyRandrWidget.event)) :
  PyRandrWidget.__init__ screen tool = Ok win0 ->
  exists win,
    PyRandrWidget.run queue win0 = Ok win /\
    (forall area, area ∈ regions -> area <> "select_region" ->
        enabled_displays (manager win) !! area = Some true
        <-> live_overlay (manager win) area) /\
    (enabled_displays (manager win) !! "select_region" = Some true ->
     live_overlay (manager win) "select_region" \/
     (SnippingWidget.visible (region_selector win) = true /\
      SnippingWidget.onSnippingCompleted (region_selector win)
      = Some complete_region_selection /\
      SnippingWidget.onSnippingCancelled (region_selector win)
      = Some cancel_region_selection)) /\
    (forall ref o,
        outlines (manager win) !! ref = Some o ->
        OutlineWidget.alive o = true ->
        exists area,
          area ∈ regions /\
          rectangles (manager win) !! area = Some ref /\
          forall area', rectangles (manager win) !! area' = Some ref ->
                        area' = area).
Proof.
  intros Hinit.
  destruct (run_inv queue win0 (init_inv _ _ _ Hinit))
    as (win & Hrun & Hinv & _ & Hsel).
  exists win. split; [exact Hrun|].
  split; [|split].
  - intros area Harea Hne. rewrite (inv_live_overlay _ _ Hinv). split.
    + by apply (inv_overlay _ Hinv).
    + intros [ref Href]. by apply (inv_flag _ Hinv area ref).
  - rewrite (inv_live_overlay _ _ Hinv). exact Hsel.
  - intros ref o Ho Halive.
    destruct (inv_owned _ Hinv _ _ Ho Halive) as (area & Href).
    exists area. split; [|split; [done|]].
    + by apply (inv_regions _ Hinv area ref).
    + intros area' Href'. by apply (inv_inj _ Hinv area' area ref).
Qed.

Lemma store_follows_overlays_witness :
  exists win,
    PyRandrWidget.run
      [Queued (PyRandrWidget.Toggled "left_half" true) [];
       Queued (PyRandrWidget.Toggled "select_region" true) [];
       Queued (PyRandrWidget.Toggled "select_region" false) [];
       Queued (PyRandrWidget.Selector (SnippingWidget.MousePress (mkQPoint 100 100))) [];
       Queued (PyRandrWidget.Selector (SnippingWidget.KeyPress Key_Escape))
         [Queued (PyRandrWidget.Selector (SnippingWidget.MouseRelease (mkQPoint 400 300)))
            [Queued (PyRandrWidget.Toggled "left_half" false) []]]]
      fresh_window = Ok win /\
    (enabled_displays (manager win) !! "left_half" = Some true
     <-> live_overlay (manager win) "left_half").
Proof.
  destruct (store_follows_overlays (mkQSize 1920 1080) obliging_tool fresh_window
      [Queued (PyRandrWidget.Toggled "left_half" true) [];
       Queued (PyRandrWidget.Toggled "select_region" true) [];
       Queued (PyRandrWidget.Toggled "select_region" false) [];
       Queued (PyRandrWidget.Selector (SnippingWidget.MousePress (mkQPoint 100 100))) [];
       Queued (PyRandrWidget.Selector (SnippingWidget.KeyPress Key_Escape))
         [Queued (PyRandrWidget.Selector (SnippingWidget.MouseRelease (mkQPoint 400 300)))
            [Queued (PyRandrWidget.Toggled "left_half" false) []]]])
    as (win & Hrun & Hothers & _).
  - reflexivity.
  - exists win. split; [exact Hrun|]. apply Hothers; [|done].
    unfold regions. rewrite !elem_of_cons. tauto.
Defined.

End Events.

(** ** Start-up from the monitors the tool lists *)

Section Startup.
Import VirtualDisplayManager.

(** A tuple whose name does not start with the prefix is skipped. *)
Lemma init_active_monitor_skip (self : t)
    (monitor : string * string * string * string) :
  startswith "PYR-" monitor.1.1.2 = false ->
  init_active_monitor self monitor = Ok self.
Proof.
  destruct monitor as [[[index name] dimensions] device]. simpl.
  intros Hname. unfold init_active_monitor. by rewrite Hname.
Qed.

Lemma init_active_monitors_skip (self : t)
    (l : list (string * string * string * string)) :
  Forall (fun monitor => startswith "PYR-" monitor.1.1.2 = false) l ->
  for_each init_active_monitor l self = Ok self.
Proof.
  induction 1 as [|monitor l Hname _ IH]; [done|]. simpl.
  rewrite init_active_monitor_skip by done. exact IH.
Qed.

(** C8. Let the tool list, among monitors whose names do not carry the
    prefix, one monitor named [PYR-left_half] with the geometry token
    [960/1x1080/1+0+0].  Then the manager is built, with [left_half]
    enabled and every other region disabled, and exactly one outline
    overlay: the one of [left_half], alive, at (0,0) with size
    960x1080, the numbers after each [/] of the token being ignored.
    The button of [left_half] is checked and the tool has not been
    run. *)
Lemma left_half_in_regions : "left_half" ∈ regions.
Proof. apply (bool_decide_unpack _). by vm_compute. Qed.

(** A listed monitor of a disabled region without overlay, whose
    geometry token parses: the overlay is drawn and the flag set. *)
Lemma init_active_monitor_enable (self : t) (index area dimensions device : string)
    (ws hs xs ys : string) (w h x y : Z) :
  area ∈ regions ->
  enabled_displays self !! area = Some false ->
  rectangles self !! area = None ->
  is_Some (push_buttons self !! ("push_button_" +:+ area)) ->
  geometry_findall_0 dimensions = Ok (ws, hs, xs, ys) ->
  py_int ws = Ok w -> py_int hs = Ok h -> py_int xs = Ok x -> py_int ys = Ok y ->
  init_active_monitor self (index, "PYR-" +:+ area, dimensions, device)
  = Ok (flagged area true
          (set_rectangles (<[area := length (outlines self)]> (rectangles self))
             (set_outlines
                (outlines self
                   ++ [OutlineWidget.__init__ (mkQPoint x y) (mkQPoint (x + w) (y + h))])
                self))).
Proof.
  intros Harea Hflag Hnone Hbutton Hgeometry Hw Hh Hx Hy.
  unfold init_active_monitor.
  change (startswith "PYR-" ("PYR-" +:+ area)) with true.
  change (slice_from 4 ("PYR-" +:+ area)) with area.
  rewrite bool_decide_eq_true_2 by (by rewrite Hflag).
  cbn [andb]. rewrite (replace_prefix _ Harea).
  rewrite Hgeometry, res_bind_Ok, Hw, res_bind_Ok, Hh, res_bind_Ok,
    Hx, res_bind_Ok, Hy, res_bind_Ok.
  rewrite draw_outline_fresh, res_bind_Ok by done.
  by rewrite set_state_enable, res_bind_Ok by done.
Qed.

Theorem init_restores_left_half (screen : QSize)
    (calls : list (list string)) (exit_status : list (list string) -> list string -> Z)
    (before after : list (string * string * string * string))
    (index device : string) :
  Forall (fun monitor => startswith "PYR-" monitor.1.1.2 = false) before ->
  Forall (fun monitor => startswith "PYR-" monitor.1.1.2 = false) after ->
  let tool :=
    Xrandr.mkTool calls exit_status
      (before ++ [(index, "PYR-left_half", "960/1x1080/1+0+0", device)] ++ after) in
  exists self,
    __init__ screen PyRandrWidget.form_buttons tool = Ok self /\
    enabled_displays self
      = <["left_half" := true]> (list_to_map ((fun area => (area, false)) <$> regions)) /\
    rectangles self = {["left_half" := 0%nat]} /\
    outlines self
      = [OutlineWidget.mk (mkQPoint 0 0) (mkQPoint 960 1080) (0, 0, 960, 1080) true] /\
    (forall w, outlines self !! 0%nat = Some w ->
               OutlineWidget.coordinates w = (0, 0) /\
               OutlineWidget.size w = (960, 1080)) /\
    push_buttons self
      = <["push_button_left_half" := true]> PyRandrWidget.form_buttons /\
    xrandr self = tool.
Proof.
  intros Hbefore Hafter tool.
  unfold __init__, init_active_monitors.
  change (Xrandr.list_monitors (xrandr (fresh screen PyRandrWidget.form_buttons tool)))
    with (before ++ [(index, "PYR-left_half", "960/1x1080/1+0+0", device)%string] ++ after).
  rewrite for_each_app, init_active_monitors_skip, res_bind_Ok by done.
  change ([(index, "PYR-left_half", "960/1x1080/1+0+0", device)%string] ++ after)
    with ((index, "PYR-left_half", "960/1x1080/1+0+0", device)%string :: after).
  rewrite for_each_cons.
  rewrite (init_active_monitor_enable _ index "left_half" "960/1x1080/1+0+0" device
             "960" "1080" "0" "0" 960 1080 0 0);
    [ | apply left_half_in_regions
      | apply (proj2 (fresh_flags "left_half" false));
        split; [apply left_half_in_regions | reflexivity]
      | apply lookup_empty
      | apply form_buttons_lookup, left_half_in_regions
      | reflexivity.. ].
  rewrite res_bind_Ok, init_active_monitors_skip by done.
  eexists. split; [reflexivity|].
  cbn [enabled_displays rectangles outlines push_buttons xrandr flagged fresh
       set_rectangles set_outlines set_push_buttons set_enabled_displays].
  split; [reflexivity|]. split; [apply insert_empty|].
  split; [reflexivity|]. split; [|split; reflexivity].
  intros w [= <-]. split; reflexivity.
Qed.

Lemma init_restores_left_half_witness :
  exists self,
    __init__ (mkQSize 1920 1080) PyRandrWidget.form_buttons
      (Xrandr.mkTool [] (fun _ _ => 0)
         [("0", "+*eDP-1", "1920/344x1080/194+0+0", "eDP-1");
          ("1", "PYR-left_half", "960/1x1080/1+0+0", "")]) = Ok self /\
    rectangles self = {["left_half" := 0%nat]}.
Proof.
  destruct (init_restores_left_half (mkQSize 1920 1080) [] (fun _ _ => 0)
              [("0", "+*eDP-1", "1920/344x1080/194+0+0", "eDP-1")%string] []
              "1" "")
    as (self & Hinit & _ & Hrect & _).
  - repeat constructor.
  - constructor.
  - exists self. split; [exact Hinit | exact Hrect].
Defined.

End Startup.
